(** * lab/main.py: the table model and its operations

    A shallow embedding of [Table], [TableOperations] and the two
    [save_table] adapters of [lab/main.py].

    Python objects live in a store: [table.headers], every row of
    [table.rows] and [table.column_types] are references, so that
    [headers.append], [row.append] and [column_types[h] = ty] act on
    objects that several tables (or several positions of one table) may
    share, as they do after [concat(t, t)] or [split(t, k)]. *)

From Stdlib Require Import ZArith Lia.
From Stdlib Require Import PrimFloat SpecFloat FloatOps.
From Stdlib Require Import Ascii String.
From stdpp Require Import base option list strings gmap pretty.

Local Open Scope Z_scope.

(** ** Exceptions and results *)

(** The built-in exception classes the modelled code can raise.  None of
    them is a subclass of another one of the list.  [OSError] stands for
    its subclasses too, the ones that [open] raises:
    [FileNotFoundError], [PermissionError], [IsADirectoryError].
    [StoreFault] is not a Python exception: it is the model reading a
    reference that has no object in the store, which no Python state
    contains. *)
Inductive exn :=
  | ValueError
  | TypeError
  | IndexError
  | OverflowError
  | ZeroDivisionError
  | OSError
  | StoreFault.

Inductive pyres (A : Type) :=
  | Return (a : A)
  | Raise (e : exn).
Arguments Return {A} a.
Arguments Raise {A} e.

Definition pybind {A B} (r : pyres A) (k : A -> pyres B) : pyres B :=
  match r with
  | Return a => k a
  | Raise e => Raise e
  end.

Declare Scope py_scope.
Delimit Scope py_scope with py.
Notation "'let?' x ':=' r 'in' k" := (pybind r (fun x => k))
  (at level 10, x pattern, r at level 100, k at level 200) : py_scope.
Local Open Scope py_scope.

(** [try: body  except (ValueError, TypeError): handler]. *)
Definition try_except_value_type {A} (body handler : pyres A) : pyres A :=
  match body with
  | Raise ValueError | Raise TypeError => handler
  | r => r
  end.

(** [try: body  except ValueError: handler]. *)
Definition try_except_value {A} (body handler : pyres A) : pyres A :=
  match body with
  | Raise ValueError => handler
  | r => r
  end.

(** ** Cell values and type objects *)

Record datetime := {
  year : Z; month : Z; day : Z;
  hour : Z; minute : Z; second : Z; microsecond : Z
}.

(** [Union[str, int, float, bool, datetime]], and [None]. *)
Inductive value :=
  | VNone
  | VStr (s : string)
  | VInt (n : Z)
  | VFloat (f : float)
  | VBool (b : bool)
  | VDatetime (d : datetime).

(** The type objects [int], [float], [bool], [str], [datetime] stored in
    [column_types]. *)
Inductive pytype := TInt | TFloat | TBool | TStr | TDatetime.

(** [isinstance(val, ty)]; [bool] is a subclass of [int]. *)
Definition isinstance (val : value) (ty : pytype) : bool :=
  match ty, val with
  | TInt, (VInt _ | VBool _) => true
  | TFloat, VFloat _ => true
  | TBool, VBool _ => true
  | TStr, VStr _ => true
  | TDatetime, VDatetime _ => true
  | _, _ => false
  end.

(** [val is not None]. *)
Definition is_not_None (val : value) : bool :=
  match val with VNone => false | _ => true end.

(** ** Lists: indexing, slicing, [index] *)

(** [l[i]] for an [int] [i]: a negative index counts from the end. *)
Definition getitem {A} (l : list A) (i : Z) : pyres A :=
  let n := Z.of_nat (length l) in
  let j := if i <? 0 then i + n else i in
  if (j <? 0) || (n <=? j) then Raise IndexError
  else match l !! Z.to_nat j with
       | Some x => Return x
       | None => Raise IndexError
       end.

(** A slice bound, clamped as [PySlice_AdjustIndices] does for step 1. *)
Definition slice_bound (n : Z) (dflt : Z) (b : option Z) : Z :=
  match b with
  | None => dflt
  | Some i => if i <? 0 then Z.max (i + n) 0 else Z.min i n
  end.

(** [l[start:stop]]. *)
Definition slice {A} (l : list A) (start stop : option Z) : list A :=
  let n := Z.of_nat (length l) in
  let lo := slice_bound n 0 start in
  let hi := slice_bound n n stop in
  take (Z.to_nat (hi - lo)) (drop (Z.to_nat lo) l).

(** [l.index(x)]: the first position of [x], or [ValueError]. *)
Fixpoint list_index (x : string) (l : list string) : pyres Z :=
  match l with
  | [] => Raise ValueError
  | y :: l' =>
      if decide (y = x) then Return 0
      else let? i := list_index x l' in Return (i + 1)
  end.

(** ** [float(...)] *)

Module PyFloat.

(** A [str] is its sequence of code points, all below 256 here. *)
Definition code (c : ascii) : N := Ascii.N_of_ascii c.

Definition is_digit (c : ascii) : bool :=
  ((48 <=? code c) && (code c <=? 57))%N.

Definition digit (c : ascii) : Z := Z.of_N (code c) - 48.

(** What [float] strips at both ends: the C locale's white space, and
    the two Latin-1 code points that [str.isspace] accepts, which the
    conversion to ASCII turns into a blank. *)
Definition is_space (c : ascii) : bool :=
  (((9 <=? code c) && (code c <=? 13)) || (code c =? 32)
   || (code c =? 133) || (code c =? 160))%N.

Definition lower (c : ascii) : ascii :=
  if ((65 <=? code c) && (code c <=? 90))%N
  then Ascii.ascii_of_N (code c + 32) else c.

(** An underscore is accepted between two digits only; the others make
    the literal invalid. [prev] is the character before [s]. *)
Fixpoint remove_underscores (prev : ascii) (s : string) : option string :=
  match s with
  | EmptyString =>
      if Ascii.eqb prev "_" then None else Some EmptyString
  | String c s' =>
      if Ascii.eqb c "_" then
        if is_digit prev then remove_underscores c s' else None
      else if Ascii.eqb prev "_" && negb (is_digit c) then None
      else String c <$> remove_underscores c s'
  end.

Fixpoint lstrip (s : string) : string :=
  match s with
  | String c s' => if is_space c then lstrip s' else s
  | EmptyString => EmptyString
  end.

Definition strip (s : string) : string :=
  String.rev (lstrip (String.rev (lstrip s))).

(** The longest prefix of digits, read as a number, its length, and
    the rest. *)
Fixpoint digits (acc : Z) (len : nat) (s : string) : Z * nat * string :=
  match s with
  | String c s' =>
      if is_digit c then digits (10 * acc + digit c) (S len) s'
      else (acc, len, s)
  | EmptyString => (acc, len, s)
  end.

Definition sign (s : string) : bool * string :=
  match s with
  | String "-" s' => (true, s')
  | String "+" s' => (false, s')
  | _ => (false, s)
  end.

(** The exponent part, which must reach the end of the literal. *)
Definition exponent (s : string) : option Z :=
  match s with
  | EmptyString => Some 0
  | String c s' =>
      if Ascii.eqb (lower c) "e" then
        let '(neg, s1) := sign s' in
        match digits 0 0 s1 with
        | (_, O, _) => None
        | (e, _, EmptyString) => Some (if neg then - e else e)
        | _ => None
        end
      else None
  end.

(** The decimal [(-1)^neg * m * 10^e], rounded to the nearest binary64,
    ties to even; beyond the range it is an infinity. *)
Definition of_decimal (neg : bool) (m : Z) (e : Z) : float :=
  match m with
  | Zpos p =>
      let '(num, den) :=
        if 0 <=? e then (Z.to_pos (m * 10 ^ e), 1%positive)
        else (p, Z.to_pos (10 ^ (- e))) in
      SF2Prim (SFdiv prec emax (S754_finite neg num 0)
                               (S754_finite false den 0))
  | _ => if neg then PrimFloat.neg_zero else PrimFloat.zero
  end.

Definition map_lower (s : string) : string :=
  string_of_list_ascii (lower <$> list_ascii_of_string s).

(** [inf], [infinity] and [nan], in any case. *)
Definition inf_or_nan (neg : bool) (s : string) : option float :=
  let w := map_lower s in
  if decide (w = "inf" \/ w = "infinity")
  then Some (if neg then PrimFloat.neg_infinity else PrimFloat.infinity)
  else if decide (w = "nan") then Some PrimFloat.nan
  else None.

(** [float(s)] for a [str]: [None] is [ValueError]. *)
Definition of_string (s : string) : option float :=
  match remove_underscores "000" s with
  | None => None
  | Some s0 =>
      let '(neg, s1) := sign (strip s0) in
      let '(ip, ilen, s2) := digits 0 0 s1 in
      let '(m, flen, s3) :=
        match s2 with
        | String "." s2' =>
            let '(m, flen, s3) := digits ip 0 s2' in (m, flen, s3)
        | _ => (ip, O, s2)
        end in
      match (ilen + flen)%nat with
      | O => inf_or_nan neg s1
      | _ =>
          match exponent s3 with
          | Some e => Some (of_decimal neg m (e - Z.of_nat flen))
          | None => None
          end
      end
  end.

(** [float(n)] for an [int]: rounded to nearest, ties to even;
    [None] is [OverflowError]. *)
Definition of_int (n : Z) : option float :=
  match binary_normalize prec emax n 0 false with
  | S754_infinity _ => None
  | x => Some (SF2Prim x)
  end.

End PyFloat.

(** [float(v)]. *)
Definition py_float (v : value) : pyres float :=
  match v with
  | VNone => Raise TypeError
  | VStr s =>
      match PyFloat.of_string s with
      | Some f => Return f
      | None => Raise ValueError
      end
  | VInt n =>
      match PyFloat.of_int n with
      | Some f => Return f
      | None => Raise OverflowError
      end
  | VFloat f => Return f
  | VBool b => Return (if b then PrimFloat.one else PrimFloat.zero)
  | VDatetime _ => Raise TypeError
  end.

(** [x / y] on floats. *)
Definition truediv (x y : float) : pyres float :=
  if (y =? PrimFloat.zero)%float then Raise ZeroDivisionError
  else Return (x / y)%float.

(** ** The store *)

Definition loc := positive.

(** What a file holds: nothing yet, when it has just been opened for
    writing; the header row and the data rows given to the [csv] writer;
    or a pickled [Table] with what it refers to. *)
Inductive file :=
  | EmptyFile
  | CsvFile (header_row : list string) (data_rows : list (list value))
  | PickleFile (headers : list string) (rows : list (list value))
               (column_types : gmap string pytype).

(** The list and dict objects, by the type of their elements:
    [List[str]] objects (header lists), [List[Union[...]]] objects (rows)
    and the [column_types] dicts; the files, by path; and the paths that
    the system refuses to open for writing (in a directory that does not
    exist, without permission, a directory). *)
Record store := {
  str_lists : gmap loc (list string);
  val_lists : gmap loc (list value);
  dicts : gmap loc (gmap string pytype);
  files : gmap string file;
  unwritable : gset string
}.

(** Computations that read and update the store and may raise; the
    updates made before an exception stay. *)
Definition M (A : Type) : Type := store -> pyres A * store.

Definition ret {A} (a : A) : M A := fun st => (Return a, st).

Definition lift {A} (r : pyres A) : M A := fun st => (r, st).

Definition bind {A B} (m : M A) (k : A -> M B) : M B :=
  fun st =>
    match m st with
    | (Return a, st') => k a st'
    | (Raise e, st') => (Raise e, st')
    end.

Notation "'let!' x ':=' m 'in' k" := (bind m (fun x => k))
  (at level 10, x pattern, m at level 100, k at level 200) : py_scope.
Notation "m ';;' k" := (bind m (fun _ => k))
  (at level 100, k at level 200, right associativity) : py_scope.

Definition deref {A} (heap : store -> gmap loc A) (l : loc) : M A :=
  fun st =>
    match heap st !! l with
    | Some x => (Return x, st)
    | None => (Raise StoreFault, st)
    end.

(** [l.append(x)] on a [List[str]] and on a row. *)
Definition str_list_append (l : loc) (x : string) : M unit :=
  fun st =>
    (Return (),
     {| str_lists := alter (fun xs => xs ++ [x]) l (str_lists st);
        val_lists := val_lists st; dicts := dicts st; files := files st;
        unwritable := unwritable st |}).

Definition val_list_append (l : loc) (x : value) : M unit :=
  fun st =>
    (Return (),
     {| str_lists := str_lists st;
        val_lists := alter (fun xs => xs ++ [x]) l (val_lists st);
        dicts := dicts st; files := files st;
        unwritable := unwritable st |}).

(** [d[k] = ty]. *)
Definition dict_setitem (d : loc) (k : string) (ty : pytype) : M unit :=
  fun st =>
    (Return (),
     {| str_lists := str_lists st; val_lists := val_lists st;
        dicts := alter (insert k ty) d (dicts st); files := files st;
        unwritable := unwritable st |}).

(** A new dict object. *)
Definition dict_new (d : gmap string pytype) : M loc :=
  fun st =>
    let l := fresh (dom (dicts st)) in
    (Return l,
     {| str_lists := str_lists st; val_lists := val_lists st;
        dicts := <[l := d]> (dicts st); files := files st;
        unwritable := unwritable st |}).

(** A path with a null character. *)
Definition has_nul (path : string) : bool :=
  existsb (Ascii.eqb Ascii.zero) (list_ascii_of_string path).

(** [open(path, 'w')]: [ValueError] for a path with a null character,
    [FileNotFoundError] for the empty path, an [OSError] for a path that
    the system refuses; otherwise the file is created, or emptied if it
    exists. *)
Definition open_w (path : string) : M unit :=
  fun st =>
    if has_nul path then (Raise ValueError, st)
    else if String.eqb path "" then (Raise OSError, st)
    else if decide (path ∈ unwritable st) then (Raise OSError, st)
    else
      (Return (),
       {| str_lists := str_lists st; val_lists := val_lists st;
          dicts := dicts st; files := <[path := EmptyFile]> (files st);
          unwritable := unwritable st |}).

(** Writing to the file opened at [path]: it holds [f] from then on. *)
Definition write_file (path : string) (f : file) : M unit :=
  fun st =>
    (Return (),
     {| str_lists := str_lists st; val_lists := val_lists st;
        dicts := dicts st; files := <[path := f]> (files st);
        unwritable := unwritable st |}).

Fixpoint map_st {A B} (f : A -> M B) (l : list A) : M (list B) :=
  match l with
  | [] => ret []
  | x :: l' => let! y := f x in let! ys := map_st f l' in ret (y :: ys)
  end.

(** ** [class Table] *)

(** [headers] and [column_types] are references.  [rows] is the list of
    the references of the rows: no operation of the module updates the
    outer list of a table in place, so it is kept by value. *)
Record Table := {
  headers : loc;
  rows : list loc;
  column_types : loc
}.

Module Table_.

(** [{header: str for header in headers}]. *)
Definition default_types (hs : list string) : gmap string pytype :=
  foldl (fun d header => <[header := TStr]> d) ∅ hs.

Definition __init__ (headers : loc) (rows : list loc) : M Table :=
  let! hs := deref str_lists headers in
  let! types := dict_new (default_types hs) in
  ret {| headers := headers; rows := rows; column_types := types |}.

End Table_.

(** [Union[int, str]]: a column given by position or by name. *)
Inductive column :=
  | ByIndex (i : Z)
  | ByName (name : string).

(** [f"{n}"] for an [int]. *)
Definition str_of_int (n : Z) : string := pretty n.

(** The rows of a table, read through the store. *)
Definition read_rows (rows : list loc) : M (list (list value)) :=
  map_st (deref val_lists) rows.

(** ** [class TableOperations] *)

Module TableOperations.

(** [concat]: the new table shares [table1.headers] and the row
    objects of both tables. *)
Definition concat (table1 table2 : Table) : M Table :=
  let! h1 := deref str_lists (headers table1) in
  let! h2 := deref str_lists (headers table2) in
  if decide (h1 <> h2) then lift (Raise ValueError)
  else Table_.__init__ (headers table1) (rows table1 ++ rows table2).

Definition split (table : Table) (row_number : Z) : M (Table * Table) :=
  if negb ((0 <=? row_number)
           && (row_number <=? Z.of_nat (length (rows table))))
  then lift (Raise ValueError)
  else
    let! part1 :=
      Table_.__init__ (headers table)
                      (slice (rows table) None (Some row_number)) in
    let! part2 :=
      Table_.__init__ (headers table)
                      (slice (rows table) (Some row_number) None) in
    ret (part1, part2).

(** [[row[col_index] for row in table.rows
      if row[col_index] is not None]]. *)
Fixpoint col_values (rows : list (list value)) (col_index : Z)
  : pyres (list value) :=
  match rows with
  | [] => Return []
  | row :: rows' =>
      let? c := getitem row col_index in
      if is_not_None c then
        let? val := getitem row col_index in
        let? vals := col_values rows' col_index in
        Return (val :: vals)
      else col_values rows' col_index
  end.

(** The [if]/[elif] chain of [detect_column_types]. *)
Definition detected_type (col_values : list value) : pytype :=
  if forallb (fun val => isinstance val TInt) col_values then TInt
  else if forallb (fun val => isinstance val TFloat) col_values then TFloat
  else if forallb (fun val => isinstance val TBool) col_values then TBool
  else if forallb (fun val => isinstance val TDatetime) col_values
       then TDatetime
  else TStr.

(** The loop of [detect_column_types] from column [col_index] on. *)
Fixpoint detect_columns (table : Table) (col_index : Z)
    (hs : list string) : M unit :=
  match hs with
  | [] => ret ()
  | header :: hs' =>
      let! rs := read_rows (rows table) in
      let! vals := lift (col_values rs col_index) in
      dict_setitem (column_types table) header (detected_type vals) ;;
      detect_columns table (col_index + 1) hs'
  end.

Definition detect_column_types (table : Table) : M unit :=
  let! hs := deref str_lists (headers table) in
  detect_columns table 0 hs.

(** A type object given to [set_column_types]: one of the five, or
    any other class. *)
Inductive pyclass :=
  | Known (ty : pytype)
  | OtherClass (name : string).

(** One item of [types_dict.items()]. *)
Definition set_column_type (table : Table) (key : column)
    (value : pyclass) : M unit :=
  let! hs := deref str_lists (headers table) in
  let! header :=
    match key with
    | ByIndex key =>
        if (key <? 0) || (Z.of_nat (length hs) <=? key)
        then lift (Raise ValueError)
        else lift (getitem hs key)
    | ByName key =>
        if decide (key ∈ hs) then ret key else lift (Raise ValueError)
    end in
  match value with
  | OtherClass _ => lift (Raise ValueError)
  | Known ty => dict_setitem (column_types table) header ty
  end.

Fixpoint set_column_types (table : Table)
    (types_dict : list (column * pyclass)) : M unit :=
  match types_dict with
  | [] => ret ()
  | (key, value) :: items =>
      set_column_type table key value ;; set_column_types table items
  end.

(** [target_type] is the conversion called, [float] at every call. *)
Definition _convert_to_numeric {A} (val : value)
    (target_type : value -> pyres A) : pyres A :=
  try_except_value (target_type val) (Raise ValueError).

(** [column if isinstance(column, int) else table.headers.index(column)]. *)
Definition column_index (table : Table) (column : column) : M Z :=
  match column with
  | ByIndex i => ret i
  | ByName name =>
      let! hs := deref str_lists (headers table) in
      lift (list_index name hs)
  end.

(** The body of the first loop of [_apply_operation] for one row: the
    [try] block, and the handler that formats both cells again. *)
Definition row_result (row : list value) (col_index1 col_index2 : Z)
    (operation : float -> float -> pyres float) : pyres float :=
  try_except_value_type
    (let? c1 := getitem row col_index1 in
     let? val1 := _convert_to_numeric c1 py_float in
     let? c2 := getitem row col_index2 in
     let? val2 := _convert_to_numeric c2 py_float in
     operation val1 val2)
    (let? _ := getitem row col_index1 in
     let? _ := getitem row col_index2 in
     Raise ValueError).

(** The first loop: [result_values]. *)
Fixpoint result_values (rows : list loc) (col_index1 col_index2 : Z)
    (operation : float -> float -> pyres float) : M (list float) :=
  match rows with
  | [] => ret []
  | r :: rows' =>
      let! row := deref val_lists r in
      let! x := lift (row_result row col_index1 col_index2 operation) in
      let! xs := result_values rows' col_index1 col_index2 operation in
      ret (x :: xs)
  end.

(** The second loop: [table.rows[i].append(value)] from [i] on. *)
Fixpoint append_values (rows : list loc) (i : Z) (values : list float)
  : M unit :=
  match values with
  | [] => ret ()
  | value :: values' =>
      let! r := lift (getitem rows i) in
      val_list_append r (VFloat value) ;;
      append_values rows (i + 1) values'
  end.

Definition _apply_operation (table : Table) (column1 column2 : column)
    (result_column : string)
    (operation : float -> float -> pyres float) : M unit :=
  let! col_index1 := column_index table column1 in
  let! col_index2 := column_index table column2 in
  let! values :=
    result_values (rows table) col_index1 col_index2 operation in
  str_list_append (headers table) result_column ;;
  append_values (rows table) 0 values.

Definition add (table : Table) (column1 column2 : column)
    (result_column : string) : M unit :=
  _apply_operation table column1 column2 result_column
    (fun x y => Return (x + y)%float).

Definition sub (table : Table) (column1 column2 : column)
    (result_column : string) : M unit :=
  _apply_operation table column1 column2 result_column
    (fun x y => Return (x - y)%float).

Definition mul (table : Table) (column1 column2 : column)
    (result_column : string) : M unit :=
  _apply_operation table column1 column2 result_column
    (fun x y => Return (x * y)%float).

(** [lambda x, y: x / y if y != 0 else float('inf')]. *)
Definition div (table : Table) (column1 column2 : column)
    (result_column : string) : M unit :=
  _apply_operation table column1 column2 result_column
    (fun x y =>
       if negb (y =? PrimFloat.zero)%float then truediv x y
       else py_float (VStr "inf")).

(** [bool(v)], as [if include] tests it: [None], [""], [0], [0.0] and
    [False] are false, every other value is true. *)
Definition truth (v : value) : bool :=
  match v with
  | VNone => false
  | VStr s => negb (String.eqb s "")
  | VInt n => negb (n =? 0)
  | VFloat f => negb (f =? PrimFloat.zero)%float
  | VBool b => b
  | VDatetime _ => true
  end.

(** What [filter_rows] and [get_rows_by_number] return: the list of the
    selected rows, or with [copy_table] a [Table] on them. *)
Inductive selection :=
  | Rows (rows : list loc)
  | Copy (table : Table).

(** [[row for row, include in zip(table.rows, bool_list) if include]]. *)
Fixpoint filtered_rows (rows : list loc) (bool_list : list value)
  : list loc :=
  match rows, bool_list with
  | row :: rows', include :: bool_list' =>
      if truth include then row :: filtered_rows rows' bool_list'
      else filtered_rows rows' bool_list'
  | _, _ => []
  end.

Definition filter_rows (table : Table) (bool_list : list value)
    (copy_table : bool) : M selection :=
  if negb (length bool_list =? length (rows table))%nat
  then lift (Raise ValueError)
  else
    let filtered_rows := filtered_rows (rows table) bool_list in
    if copy_table then
      let! t := Table_.__init__ (headers table) filtered_rows in ret (Copy t)
    else ret (Rows filtered_rows).

Definition get_rows_by_number (table : Table) (start : Z)
    (stop : option Z) (copy_table : bool) : M selection :=
  let stop := match stop with Some stop => stop | None => start + 1 end in
  let len := Z.of_nat (length (rows table)) in
  if negb ((0 <=? start) && (start <? len))
     || negb ((0 <=? stop) && (stop <=? len))
  then lift (Raise ValueError)
  else
    let rows := slice (rows table) (Some start) (Some stop) in
    if copy_table then
      let! t := Table_.__init__ (headers table) rows in ret (Copy t)
    else ret (Rows rows).

End TableOperations.

(** ** [CSVModule.save_table] and [PickleModule.save_table] *)

(** [range(n)]. *)
Definition range (n : Z) : list Z := seqZ 0 n.

(** [if max_rows:] for an [Optional[int]]. *)
Definition truthy (max_rows : option Z) : bool :=
  match max_rows with
  | None => false
  | Some n => negb (n =? 0)
  end.

Module CSVModule.

(** [sys.get_int_max_str_digits()], as the interpreter starts. *)
Definition max_str_digits : Z := 4300.

(** The writer turns a field that is no string to text with [str],
    which raises [ValueError] for an [int] of more than
    [max_str_digits] digits and returns for every other cell. *)
Definition field_ok (field : value) : bool :=
  match field with
  | VInt n => Z.abs n <? 10 ^ max_str_digits
  | _ => true
  end.

(** [writer.writerows(rows)]: the rows written, and how the call ends.
    A row is written once all its fields are text. *)
Fixpoint writerows (rows : list (list value))
  : list (list value) * pyres unit :=
  match rows with
  | [] => ([], Return ())
  | row :: rows' =>
      if forallb field_ok row then
        let '(written, r) := writerows rows' in (row :: written, r)
      else ([], Raise ValueError)
  end.

(** [with open(path, mode='w', ...) as csvfile:] and its body, the same
    in both branches of [save_table], for the rows [rows]; the file is
    closed with what was written, also when the body raises. *)
Definition write_csv (table : Table) (path : string) (rows : list loc)
  : M unit :=
  open_w path ;;
  let! header_row := deref str_lists (headers table) in
  write_file path (CsvFile header_row []) ;;
  let! data_rows := read_rows rows in
  let '(written, r) := writerows data_rows in
  write_file path (CsvFile header_row written) ;;
  lift r.

Fixpoint write_parts (table : Table) (file_path : string) (max_rows : Z)
    (indices : list Z) : M unit :=
  match indices with
  | [] => ret ()
  | i :: indices' =>
      let part_path :=
        (file_path +:+ "_part" +:+ str_of_int (i + 1) +:+ ".csv")%string in
      write_csv table part_path
        (slice (rows table) (Some (i * max_rows))
               (Some ((i + 1) * max_rows))) ;;
      write_parts table file_path max_rows indices'
  end.

Definition save_table (table : Table) (file_path : string)
    (max_rows : option Z) : M unit :=
  match max_rows with
  | Some max_rows' =>
      if truthy max_rows then
        let num_files :=
          (Z.of_nat (length (rows table)) + max_rows' - 1) `div` max_rows' in
        write_parts table file_path max_rows' (range num_files)
      else write_csv table file_path (rows table)
  | None => write_csv table file_path (rows table)
  end.

End CSVModule.

Module PickleModule.

(** [pickle.dump(table, file)] on the file opened at [path]: the table
    with everything it refers to. *)
Definition dump (table : Table) (path : string) : M unit :=
  let! hs := deref str_lists (headers table) in
  let! rs := read_rows (rows table) in
  let! types := deref dicts (column_types table) in
  write_file path (PickleFile hs rs types).

(** The part file is opened before the [Table] of the part is made. *)
Fixpoint write_parts (table : Table) (file_path : string) (max_rows : Z)
    (indices : list Z) : M unit :=
  match indices with
  | [] => ret ()
  | i :: indices' =>
      let part_path :=
        (file_path +:+ "_part" +:+ str_of_int (i + 1) +:+ ".pkl")%string in
      open_w part_path ;;
      let! part :=
        Table_.__init__ (headers table)
          (slice (rows table) (Some (i * max_rows))
                 (Some ((i + 1) * max_rows))) in
      dump part part_path ;;
      write_parts table file_path max_rows indices'
  end.

Definition save_table (table : Table) (file_path : string)
    (max_rows : option Z) : M unit :=
  match max_rows with
  | Some max_rows' =>
      if truthy max_rows then
        let num_files :=
          (Z.of_nat (length (rows table)) + max_rows' - 1) `div` max_rows' in
        write_parts table file_path max_rows' (range num_files)
      else (open_w file_path ;; dump table file_path)
  | None => open_w file_path ;; dump table file_path
  end.

End PickleModule.

(** ** Example tables *)

Module Example.

(** Columns [["id", "Age"]], rows [[["1", "30"], ["2", "40"]]]. *)
Definition st : store :=
  {| str_lists := {[ 1%positive := ["id"; "Age"] ]};
     val_lists := {[ 1%positive := [VStr "1"; VStr "30"];
                     2%positive := [VStr "2"; VStr "40"] ]};
     dicts := {[ 1%positive := {[ "id" := TStr; "Age" := TStr ]} ]};
     files := ∅; unwritable := ∅ |}.

Definition t : Table :=
  {| headers := 1%positive; rows := [1%positive; 2%positive];
     column_types := 1%positive |}.

(** One column [["flag"]] whose cells are [True] and [False]. *)
Definition st_flags : store :=
  {| str_lists := {[ 1%positive := ["flag"] ]};
     val_lists := {[ 1%positive := [VBool true];
                     2%positive := [VBool false] ]};
     dicts := {[ 1%positive := {[ "flag" := TStr ]} ]};
     files := ∅; unwritable := ∅ |}.

Definition t_flags : Table :=
  {| headers := 1%positive; rows := [1%positive; 2%positive];
     column_types := 1%positive |}.

(** Columns [["id", "note"]]; every cell of ["note"] is [None]. *)
Definition st_null : store :=
  {| str_lists := {[ 1%positive := ["id"; "note"] ]};
     val_lists := {[ 1%positive := [VStr "1"; VNone];
                     2%positive := [VStr "2"; VNone] ]};
     dicts := {[ 1%positive := {[ "id" := TStr; "note" := TStr ]} ]};
     files := ∅; unwritable := ∅ |}.

(** A second header list, [["id", "Name"]], and a table on it. *)
Definition st_other : store :=
  {| str_lists := {[ 1%positive := ["id"; "Age"];
                     2%positive := ["id"; "Name"] ]};
     val_lists := {[ 1%positive := [VStr "1"; VStr "30"];
                     2%positive := [VStr "2"; VStr "40"];
                     3%positive := [VStr "3"; VStr "Ann"] ]};
     dicts := {[ 1%positive := {[ "id" := TStr; "Age" := TStr ]};
                 2%positive := {[ "id" := TStr; "Name" := TStr ]} ]};
     files := ∅; unwritable := ∅ |}.

Definition t_other : Table :=
  {| headers := 2%positive; rows := [3%positive];
     column_types := 2%positive |}.

(** The columns of [t] and no row. *)
Definition t_empty : Table :=
  {| headers := 1%positive; rows := []; column_types := 1%positive |}.

(** Rows [[["1", "30"], ["2", "x"]]]: ["x"] is not a number. *)
Definition st_bad : store :=
  {| str_lists := {[ 1%positive := ["id"; "Age"] ]};
     val_lists := {[ 1%positive := [VStr "1"; VStr "30"];
                     2%positive := [VStr "2"; VStr "x"] ]};
     dicts := {[ 1%positive := {[ "id" := TStr; "Age" := TStr ]} ]};
     files := ∅; unwritable := ∅ |}.

(** Rows [[["1", "0"], ["2", "40"]]]: a zero in column ["Age"]. *)
Definition st_zero : store :=
  {| str_lists := {[ 1%positive := ["id"; "Age"] ]};
     val_lists := {[ 1%positive := [VStr "1"; VStr "0"];
                     2%positive := [VStr "2"; VStr "40"] ]};
     dicts := {[ 1%positive := {[ "id" := TStr; "Age" := TStr ]} ]};
     files := ∅; unwritable := ∅ |}.

(** The table that [concat(t, t)] returns: every row object of [t]
    is at two positions. *)
Definition t_twice : Table :=
  {| headers := 1%positive;
     rows := [1%positive; 2%positive; 1%positive; 2%positive];
     column_types := 2%positive |}.

End Example.

(** ** Notions used in the statements and in the proofs *)

(** The value that the first loop of [_apply_operation] computes for the
    row at reference [r]. *)
Definition row_value (st : store) (i1 i2 : Z)
    (op : float -> float -> pyres float) (r : loc) : pyres float :=
  match val_lists st !! r with
  | Some row => TableOperations.row_result row i1 i2 op
  | None => Raise StoreFault
  end.

(** That value, for a row on which the loop does not raise. *)
Definition value_of (st : store) (i1 i2 : Z)
    (op : float -> float -> pyres float) (r : loc) : float :=
  match row_value st i1 i2 op r with
  | Return z => z
  | Raise _ => PrimFloat.nan
  end.

(** The two operand cells of a row convert to the floats [x] and [y]. *)
Definition operands (row : list value) (i1 i2 : Z) (x y : float) : Prop :=
  exists a b,
    getitem row i1 = Return a /\ py_float a = Return x /\
    getitem row i2 = Return b /\ py_float b = Return y.

(** The number of positions of [rows] that hold the reference [r]. *)
Definition occurrences (r : loc) (rows : list loc) : nat :=
  length (filter (fun r' => r' = r) rows).

(** The rows after the second loop of [_apply_operation]. *)
Definition append_all (rows : list loc) (values : list float)
    (m : gmap loc (list value)) : gmap loc (list value) :=
  foldl (fun m rx => alter (fun cells => cells ++ [VFloat rx.2]) rx.1 m)
        m (zip rows values).

(** The assignments [column_types[header] = ty] that the loop of
    [detect_column_types] makes from column [i] on, in order, and how
    the loop ends; [rs] is what reading the rows gives. *)
Fixpoint detect_writes (rs : pyres (list (list value))) (i : Z)
    (hs : list string) : list (string * pytype) * pyres unit :=
  match hs with
  | [] => ([], Return ())
  | header :: hs' =>
      match rs with
      | Raise e => ([], Raise e)
      | Return rows =>
          match TableOperations.col_values rows i with
          | Raise e => ([], Raise e)
          | Return vals =>
              let '(ws, r) := detect_writes rs (i + 1) hs' in
              ((header, TableOperations.detected_type vals) :: ws, r)
          end
      end
  end.

(** A dict after the assignments [ws]. *)
Definition apply_writes (ws : list (string * pytype))
    (d : gmap string pytype) : gmap string pytype :=
  foldl (fun d w => <[w.1 := w.2]> d) d ws.

(** The store with other [column_types] dicts. *)
Definition with_dicts (st : store) (ds : gmap loc (gmap string pytype))
  : store :=
  {| str_lists := str_lists st; val_lists := val_lists st;
     dicts := ds; files := files st;
        unwritable := unwritable st |}.


(** The rows at the references [rows] are [rs]. *)
Definition rows_are (st : store) (rows : list loc)
    (rs : list (list value)) : Prop :=
  Forall2 (fun r row => val_lists st !! r = Some row) rows rs.




(** A cell that [detect_column_types] counts as an [int]: it is skipped
    ([None]) or passes [isinstance(val, int)]. *)
Definition int_like (v : value) : Prop :=
  v = VNone \/ isinstance v TInt = true.

(** The rows of a selection. *)
Definition selected (sel : TableOperations.selection) : list loc :=
  match sel with
  | TableOperations.Rows rows => rows
  | TableOperations.Copy table => rows table
  end.

(** The key [key] of [set_column_types] names the column [h] of the
    header list [hs]: an index inside [[0, len(hs))], or a name of [hs]. *)
Definition resolves (hs : list string) (key : column) (h : string) : Prop :=
  match key with
  | ByIndex i => 0 <= i < Z.of_nat (length hs) /\ hs !! Z.to_nat i = Some h
  | ByName name => name ∈ hs /\ h = name
  end.

(** The cells of column [j] that are not [None], from the first row to
    the last. *)
Definition column_values (rs : list (list value)) (j : nat) : list value :=
  List.filter is_not_None (omap (fun row => row !! j) rs).

(** The items of [types_dict] are valid and make the assignments
    [ws]. *)
Definition valid_items (hs : list string) (items : list (column * TableOperations.pyclass))
    (ws : list (string * pytype)) : Prop :=
  Forall2 (fun item w => resolves hs item.1 w.1 /\ item.2 = TableOperations.Known w.2)
          items ws.

(** The assignments of [detect_column_types] for the columns [hs],
    which stand at the positions from [n] on, of rows that reach every
    one of them. *)
Definition column_writes (rs : list (list value)) (n : nat)
    (hs : list string) : list (string * pytype) :=
  imap (fun j h => (h, TableOperations.detected_type (column_values rs (n + j))))
       hs.

(** A table with typed cells: columns [["n", "x", "s", "m"]] and rows
    [[[1, 1.5, "a", 1], [True, None, None, 2.5]]]. *)
Definition st_typed : store :=
  {| str_lists := {[ 1%positive := ["n"; "x"; "s"; "m"] ]};
     val_lists := {[ 1%positive := [VInt 1; VFloat 1.5; VStr "a"; VInt 1];
                     2%positive := [VBool true; VNone; VNone; VFloat 2.5] ]};
     dicts := {[ 1%positive :=
                   {[ "n" := TStr; "x" := TStr; "s" := TStr; "m" := TStr ]} ]};
     files := ∅; unwritable := ∅ |}.

(** The same columns; the second row stops after ["x"]. *)
Definition st_ragged : store :=
  {| str_lists := {[ 1%positive := ["n"; "x"; "s"; "m"] ]};
     val_lists := {[ 1%positive := [VInt 1; VFloat 1.5; VStr "a"; VInt 1];
                     2%positive := [VBool true; VNone] ]};
     dicts := {[ 1%positive :=
                   {[ "n" := TStr; "x" := TStr; "s" := TStr; "m" := TStr ]} ]};
     files := ∅; unwritable := ∅ |}.

(** Rows [[["1", 2 ** 1024]]]: the [int] is too large for a [float]. *)
Definition st_huge : store :=
  {| str_lists := {[ 1%positive := ["id"; "Age"] ]};
     val_lists := {[ 1%positive := [VStr "1"; VInt (2 ^ 1024)] ]};
     dicts := {[ 1%positive := {[ "id" := TStr; "Age" := TStr ]} ]};
     files := ∅; unwritable := ∅ |}.

Definition t_huge : Table :=
  {| headers := 1%positive; rows := [1%positive];
     column_types := 1%positive |}.



(** * Properties *)

(** ** The store monad *)

Lemma bind_Return {A B} (m : M A) (k : A -> M B) st a st' :
  m st = (Return a, st') -> bind m k st = k a st'.
Proof. unfold bind. by intros ->. Qed.

Lemma deref_Some {A} (heap : store -> gmap loc A) l st x :
  heap st !! l = Some x -> deref heap l st = (Return x, st).
Proof. unfold deref. by intros ->. Qed.

(** Reading leaves the store as it is. *)
Lemma read_rows_store rows st : (read_rows rows st).2 = st.
Proof.
  unfold read_rows. induction rows as [|r rows IH]; simpl; [done|].
  unfold bind at 1. unfold deref at 1.
  destruct (val_lists st !! r) as [cells|]; [|done].
  unfold bind. destruct (map_st _ rows st) as [[rs|e] st'] eqn:E; by simpl in *.
Qed.

(** ** [Table.__init__], [concat], [split] *)

Lemma default_types_lookup hs h :
  Table_.default_types hs !! h = if decide (h ∈ hs) then Some TStr else None.
Proof.
  unfold Table_.default_types.
  induction hs as [|x hs IH] using rev_ind.
  - cbn [foldl]. rewrite lookup_empty. by rewrite decide_False by set_solver.
  - rewrite foldl_app. cbn [foldl]. destruct (decide (x = h)) as [->|Hne].
    + rewrite lookup_insert_eq. by rewrite decide_True by set_solver.
    + rewrite lookup_insert_ne by done. rewrite IH.
      destruct (decide (h ∈ hs)).
      * rewrite decide_True; [done|]. apply elem_of_app. by left.
      * rewrite decide_False; [done|].
        rewrite elem_of_app, list_elem_of_singleton. by intros [?|?].
Qed.

Lemma init_eq hl rs st hs :
  str_lists st !! hl = Some hs ->
  Table_.__init__ hl rs st =
    (Return {| headers := hl; rows := rs;
               column_types := fresh (dom (dicts st)) |},
     {| str_lists := str_lists st; val_lists := val_lists st;
        dicts := <[fresh (dom (dicts st)) := Table_.default_types hs]> (dicts st);
        files := files st; unwritable := unwritable st |}).
Proof.
  intros Hh. unfold Table_.__init__.
  by rewrite (bind_Return _ _ _ _ _ (deref_Some str_lists _ _ _ Hh)).
Qed.

Lemma fresh_dict_None (st : store) : dicts st !! fresh (dom (dicts st)) = None.
Proof. apply not_elem_of_dom, is_fresh. Qed.

(** C5. For tables [a] and [b] whose header lists hold the same names in
    the same order, [concat a b] returns a new table: its [headers] is
    the header list of [a], its rows are the rows of [a] followed by the
    rows of [b], and its [column_types] is a fresh dict that gives [str]
    to every column and has no other key; no list and no file changes.
    When the two header lists differ, [concat] raises [ValueError] and
    the store is as before. *)
Theorem concat_spec (a b : Table) (st : store) (ha hb : list string) :
  str_lists st !! headers a = Some ha ->
  str_lists st !! headers b = Some hb ->
  (ha = hb ->
   exists t st',
     TableOperations.concat a b st = (Return t, st')
     /\ headers t = headers a
     /\ rows t = rows a ++ rows b
     /\ str_lists st' = str_lists st
     /\ val_lists st' = val_lists st
     /\ files st' = files st
     /\ dicts st !! column_types t = None
     /\ dicts st' = <[column_types t := Table_.default_types ha]> (dicts st)
     /\ (forall h, h ∈ ha -> Table_.default_types ha !! h = Some TStr)
     /\ (forall h, h ∉ ha -> Table_.default_types ha !! h = None))
  /\ (ha <> hb -> TableOperations.concat a b st = (Raise ValueError, st)).
Proof.
  intros Ha Hb. unfold TableOperations.concat.
  rewrite (bind_Return _ _ _ _ _ (deref_Some str_lists _ _ _ Ha)).
  rewrite (bind_Return _ _ _ _ _ (deref_Some str_lists _ _ _ Hb)).
  split.
  - intros <-. rewrite decide_False by (intros H; by apply H).
    rewrite (init_eq _ _ _ _ Ha). eexists _, _. split; [done|]. simpl.
    repeat split; try done.
    + apply fresh_dict_None.
    + intros h Hin. rewrite default_types_lookup. by rewrite decide_True.
    + intros h Hin. rewrite default_types_lookup. by rewrite decide_False.
  - intros Hne. by rewrite decide_True.
Qed.

Lemma concat_spec_witness :
  (exists t st',
     TableOperations.concat Example.t Example.t Example.st = (Return t, st')
     /\ headers t = headers Example.t
     /\ rows t = [1%positive; 2%positive; 1%positive; 2%positive]
     /\ dicts st' !! column_types t
        = Some (Table_.default_types ["id"; "Age"]))
  /\ TableOperations.concat Example.t Example.t_other Example.st_other
     = (Raise ValueError, Example.st_other).
Proof.
  split.
  - destruct (concat_spec Example.t Example.t Example.st
                ["id"; "Age"] ["id"; "Age"])
      as [(t & st' & Hrun & Hh & Hr & _ & _ & _ & _ & Hd & _) _];
      [done..|].
    exists t, st'. rewrite Hd, lookup_insert_eq. by repeat split.
  - apply (concat_spec Example.t Example.t_other Example.st_other
             ["id"; "Age"] ["id"; "Name"]); done.
Defined.

Lemma slice_to {A} (l : list A) (k : Z) :
  0 <= k <= Z.of_nat (length l) ->
  slice l None (Some k) = take (Z.to_nat k) l.
Proof.
  intros Hk. unfold slice, slice_bound.
  destruct (Z.ltb_spec k 0); [lia|].
  rewrite Z.min_l by lia. by rewrite Z.sub_0_r.
Qed.

Lemma slice_from {A} (l : list A) (k : Z) :
  0 <= k <= Z.of_nat (length l) ->
  slice l (Some k) None = drop (Z.to_nat k) l.
Proof.
  intros Hk. unfold slice, slice_bound.
  destruct (Z.ltb_spec k 0); [lia|].
  rewrite Z.min_l by lia. apply take_ge. rewrite length_drop. lia.
Qed.

(** C6. For [0 <= k <= len(t.rows)], [split t k] returns two new tables
    that share the header list of [t], whose rows put one after the other
    are the rows of [t], the first with [k] rows; each has a fresh
    [column_types] dict, and no list and no file changes.  For every
    other [k], [split] raises [ValueError] and the store is as before. *)
Theorem split_spec (t : Table) (k : Z) (st : store) (hs : list string) :
  str_lists st !! headers t = Some hs ->
  (0 <= k <= Z.of_nat (length (rows t)) ->
   exists p1 p2 st',
     TableOperations.split t k st = (Return (p1, p2), st')
     /\ headers p1 = headers t /\ headers p2 = headers t
     /\ rows p1 ++ rows p2 = rows t
     /\ Z.of_nat (length (rows p1)) = k
     /\ str_lists st' = str_lists st
     /\ val_lists st' = val_lists st
     /\ files st' = files st
     /\ dicts st !! column_types p1 = None
     /\ dicts st !! column_types p2 = None
     /\ column_types p1 <> column_types p2
     /\ dicts st' = <[column_types p2 := Table_.default_types hs]>
                      (<[column_types p1 := Table_.default_types hs]> (dicts st)))
  /\ (~ 0 <= k <= Z.of_nat (length (rows t)) ->
      TableOperations.split t k st = (Raise ValueError, st)).
Proof.
  intros Hh. unfold TableOperations.split. split.
  - intros Hk.
    destruct (Z.leb_spec 0 k); [|lia].
    destruct (Z.leb_spec k (Z.of_nat (length (rows t)))); [|lia].
    cbn [andb negb].
    rewrite (bind_Return _ _ _ _ _ (init_eq _ _ _ _ Hh)). cbv beta.
    match goal with |- context [bind _ _ ?s] => set (st1 := s) end.
    assert (Hh1 : str_lists st1 !! headers t = Some hs) by done.
    rewrite (bind_Return _ _ _ _ _ (init_eq _ _ _ _ Hh1)).
    unfold ret. eexists _, _, _. split; [done|]. cbn.
    rewrite slice_to, slice_from by done.
    assert (Hin : fresh (dom (dicts st)) ∈ dom (dicts st1)).
    { apply elem_of_dom. subst st1. cbn. rewrite lookup_insert_eq. by eexists. }
    repeat split; try done.
    + apply take_drop.
    + rewrite length_take. lia.
    + apply fresh_dict_None.
    + apply not_elem_of_dom. intros Hin'.
      apply (is_fresh (dom (dicts st1))). apply elem_of_dom.
      subst st1. cbn. apply lookup_insert_is_Some'. right.
      by apply elem_of_dom.
    + intros Heq. apply (is_fresh (dom (dicts st1))).
      by replace (fresh (dom (dicts st1))) with (fresh (dom (dicts st))).
  - intros Hk.
    destruct (Z.leb_spec 0 k); destruct (Z.leb_spec k (Z.of_nat (length (rows t))));
      try done; lia.
Qed.

Lemma split_spec_witness :
  (exists p1 p2 st',
     TableOperations.split Example.t 1 Example.st = (Return (p1, p2), st')
     /\ rows p1 ++ rows p2 = [1%positive; 2%positive]
     /\ Z.of_nat (length (rows p1)) = 1)
  /\ TableOperations.split Example.t 5 Example.st = (Raise ValueError, Example.st).
Proof.
  split.
  - destruct (split_spec Example.t 1 Example.st ["id"; "Age"])
      as [(p1 & p2 & st' & Hrun & _ & _ & Hr & Hk & _) _];
      [done|cbn; lia|].
    by exists p1, p2, st'.
  - apply (split_spec Example.t 5 Example.st ["id"; "Age"]); [done|].
    cbn. lia.
Defined.

Import TableOperations.

(** ** [_apply_operation] *)

Lemma getitem_lookup {A} (l : list A) (i : nat) (x : A) :
  l !! i = Some x -> getitem l (Z.of_nat i) = Return x.
Proof.
  intros Hl. unfold getitem. pose proof (lookup_lt_Some _ _ _ Hl).
  destruct (Z.ltb_spec (Z.of_nat i) 0); [lia|].
  destruct (Z.ltb_spec (Z.of_nat i) 0); [lia|].
  destruct (Z.leb_spec (Z.of_nat (length l)) (Z.of_nat i)); [lia|].
  cbn [orb]. by rewrite Nat2Z.id, Hl.
Qed.

Lemma column_index_store t c st : (column_index t c st).2 = st.
Proof.
  destruct c as [i|name]; [done|]. unfold column_index, bind, deref.
  by destruct (str_lists st !! headers t).
Qed.

Lemma result_values_store rows i1 i2 op st :
  (result_values rows i1 i2 op st).2 = st.
Proof.
  induction rows as [|r rows IH]; [done|]. cbn [result_values].
  unfold bind at 1, deref. destruct (val_lists st !! r) as [row|]; [|done].
  unfold bind at 1, lift. destruct (row_result row i1 i2 op); [|done].
  unfold bind, ret.
  destruct (result_values rows i1 i2 op st) as [[xs|e] st'] eqn:E; by cbn in *.
Qed.

Lemma result_values_Return rows i1 i2 op st xs :
  Forall2 (fun r x => row_value st i1 i2 op r = Return x) rows xs ->
  result_values rows i1 i2 op st = (Return xs, st).
Proof.
  induction 1 as [|r x rows xs Hr _ IH]; [done|]. cbn [result_values].
  unfold row_value in Hr. unfold bind at 1, deref.
  destruct (val_lists st !! r) as [row|]; [|done].
  unfold bind at 1, lift. rewrite Hr. unfold bind. by rewrite IH.
Qed.

Lemma result_values_inv rows i1 i2 op st xs st' :
  result_values rows i1 i2 op st = (Return xs, st') ->
  Forall2 (fun r x => row_value st i1 i2 op r = Return x) rows xs.
Proof.
  revert xs st'. induction rows as [|r rows IH]; intros xs st'.
  - cbn. unfold ret. intros [= <- _]. constructor.
  - cbn [result_values]. unfold bind at 1, deref.
    destruct (val_lists st !! r) as [row|] eqn:Hr; [|done].
    unfold bind at 1, lift.
    destruct (row_result row i1 i2 op) as [x|] eqn:Hx; [|done].
    unfold bind, ret.
    destruct (result_values rows i1 i2 op st) as [[xs'|e] st''] eqn:E; [|done].
    intros [= <- _]. constructor; [|by eapply IH].
    unfold row_value. by rewrite Hr.
Qed.

Lemma append_values_eq rows (i : nat) values st :
  length values = length (drop i rows) ->
  append_values rows (Z.of_nat i) values st =
    (Return (),
     {| str_lists := str_lists st;
        val_lists := append_all (drop i rows) values (val_lists st);
        dicts := dicts st; files := files st;
        unwritable := unwritable st |}).
Proof.
  revert i st. induction values as [|x values IH]; intros i st Hlen.
  - cbn. unfold ret, append_all. destruct (drop i rows); [|done].
    by destruct st.
  - destruct (drop i rows) as [|r rest] eqn:Hd; [done|].
    assert (Hi : rows !! i = Some r).
    { rewrite <- (Nat.add_0_r i), <- lookup_drop. by rewrite Hd. }
    assert (Hd' : drop (S i) rows = rest).
    { rewrite (drop_S _ _ _ Hi) in Hd. by injection Hd. }
    cbn [append_values]. unfold bind at 1, lift.
    rewrite (getitem_lookup _ _ _ Hi). unfold bind at 1, val_list_append.
    replace (Z.of_nat i + 1) with (Z.of_nat (S i)) by lia.
    rewrite IH by (rewrite Hd'; cbn in Hlen; lia).
    by rewrite Hd'.
Qed.

Lemma append_all_lookup (f : loc -> float) rows m r :
  append_all rows (f <$> rows) m !! r =
    (fun cells => cells ++ replicate (occurrences r rows) (VFloat (f r)))
      <$> m !! r.
Proof.
  unfold append_all, occurrences. revert m.
  induction rows as [|a rows IH]; intros m.
  - cbn. destruct (m !! r); cbn; [|done]. by rewrite app_nil_r.
  - cbn [fmap list_fmap zip zip_with foldl fst snd]. rewrite IH.
    rewrite filter_cons. destruct (decide (a = r)) as [->|Hne].
    + rewrite lookup_alter_eq. destruct (m !! r); cbn; [|done].
      by rewrite <- app_assoc.
    + by rewrite lookup_alter_ne.
Qed.

Lemma occurrences_notin r rows : r ∉ rows -> occurrences r rows = 0%nat.
Proof.
  unfold occurrences. induction rows as [|a rows IH]; [done|].
  intros [Hne Hnotin]%not_elem_of_cons. rewrite filter_cons.
  rewrite decide_False by done. by apply IH.
Qed.

Lemma occurrences_NoDup r rows :
  NoDup rows -> r ∈ rows -> occurrences r rows = 1%nat.
Proof.
  induction 1 as [|a rows Ha Hnd IH]; [by intros ?%elem_of_nil|].
  unfold occurrences. rewrite filter_cons. intros [->|Hin]%elem_of_cons.
  - rewrite decide_True by done. cbn. f_equal. by apply occurrences_notin.
  - rewrite decide_False by (by intros ->). by apply IH.
Qed.

Lemma row_result_Return row i1 i2 op x y z :
  operands row i1 i2 x y -> op x y = Return z ->
  row_result row i1 i2 op = Return z.
Proof.
  intros (a & b & Ha & Hx & Hb & Hy) Hz. unfold row_result.
  rewrite Ha, Hb. cbn. unfold _convert_to_numeric.
  rewrite Hx, Hy. cbn. by rewrite Hz.
Qed.

(** What a successful [_apply_operation] does to the store, rows that
    occur several times in the table included. *)
Lemma apply_operation_Return t c1 c2 name op st i1 i2 (f : loc -> float) :
  column_index t c1 st = (Return i1, st) ->
  column_index t c2 st = (Return i2, st) ->
  (forall r, r ∈ rows t -> row_value st i1 i2 op r = Return (f r)) ->
  exists st',
    _apply_operation t c1 c2 name op st = (Return (), st')
    /\ str_lists st' =
         alter (fun hs => hs ++ [name]) (headers t) (str_lists st)
    /\ (forall r,
          val_lists st' !! r =
            (fun cells =>
               cells ++ replicate (occurrences r (rows t)) (VFloat (f r)))
              <$> val_lists st !! r)
    /\ dicts st' = dicts st
    /\ files st' = files st.
Proof.
  intros H1 H2 Hrows. unfold _apply_operation.
  rewrite (bind_Return _ _ _ _ _ H1). cbv beta.
  rewrite (bind_Return _ _ _ _ _ H2). cbv beta.
  assert (Hvals : result_values (rows t) i1 i2 op st
                  = (Return (f <$> rows t), st)).
  { apply result_values_Return. apply Forall2_fmap_r, Forall_Forall2_diag.
    apply Forall_forall. intros r Hr. by apply Hrows. }
  rewrite (bind_Return _ _ _ _ _ Hvals). cbv beta.
  unfold bind at 1, str_list_append.
  rewrite (append_values_eq _ 0) by (cbn; by rewrite length_fmap).
  eexists. split; [done|]. cbn. repeat split.
  intros r. apply append_all_lookup.
Qed.

Lemma occurrences_pos r rows : r ∈ rows -> (0 < occurrences r rows)%nat.
Proof.
  unfold occurrences. induction rows as [|a rows IH]; [by intros ?%elem_of_nil|].
  rewrite filter_cons. destruct (decide (a = r)) as [->|Hne]; [cbn; lia|].
  intros [->|Hin]%elem_of_cons; [done|]. by apply IH.
Qed.

Lemma row_value_operands st i1 i2 op r row x y z :
  val_lists st !! r = Some row -> operands row i1 i2 x y ->
  op x y = Return z ->
  row_value st i1 i2 op r = Return z /\ value_of st i1 i2 op r = z.
Proof.
  intros Hr Hxy Hz. unfold value_of, row_value. rewrite Hr.
  by rewrite (row_result_Return _ _ _ _ _ _ _ Hxy Hz).
Qed.

Lemma float_inf : py_float (VStr "inf") = Return PrimFloat.infinity.
Proof. reflexivity. Qed.

(** For an operation that returns on every row, the cells appended to
    each row. *)
Lemma apply_operation_total t c1 c2 name op (g : float -> float -> float)
    st i1 i2 :
  (forall x y, op x y = Return (g x y)) ->
  column_index t c1 st = (Return i1, st) ->
  column_index t c2 st = (Return i2, st) ->
  (forall r, r ∈ rows t ->
     exists row x y, val_lists st !! r = Some row /\ operands row i1 i2 x y) ->
  exists st',
    _apply_operation t c1 c2 name op st = (Return (), st')
    /\ forall r row x y,
         r ∈ rows t -> val_lists st !! r = Some row ->
         operands row i1 i2 x y ->
         (0 < occurrences r (rows t))%nat
         /\ val_lists st' !! r =
              Some (row ++ replicate (occurrences r (rows t))
                                     (VFloat (g x y))).
Proof.
  intros Hop H1 H2 Hrows.
  destruct (apply_operation_Return t c1 c2 name op st i1 i2
              (value_of st i1 i2 op) H1 H2) as (st' & Hrun & _ & Hval & _).
  { intros r Hr. destruct (Hrows r Hr) as (row & x & y & Hrow & Hxy).
    destruct (row_value_operands st i1 i2 op r row x y _ Hrow Hxy (Hop x y))
      as [-> ->]. done. }
  exists st'. split; [done|]. intros r row x y Hr Hrow Hxy.
  split; [by apply occurrences_pos|]. rewrite Hval, Hrow. cbn.
  by destruct (row_value_operands st i1 i2 op r row x y _ Hrow Hxy (Hop x y))
    as [_ ->].
Qed.

(** C2. When both operand cells of every row convert to a float, [div]
    returns without raising, and a row whose divisor is zero ([0.0] or
    [-0.0]) gets the cell [inf] (a row with another divisor gets
    [x / y]); [add], [sub] and [mul] return too and give every row the
    IEEE result [x + y], [x - y], [x * y], a zero operand included.  A
    row object that is at [n] positions of the table gets its cell [n]
    times, [n >= 1]. *)
Theorem div_zero_divisor_gives_infinity t c1 c2 name st i1 i2 :
  column_index t c1 st = (Return i1, st) ->
  column_index t c2 st = (Return i2, st) ->
  (forall r, r ∈ rows t ->
     exists row x y, val_lists st !! r = Some row /\ operands row i1 i2 x y) ->
  (exists st',
     div t c1 c2 name st = (Return (), st')
     /\ forall r row x y,
          r ∈ rows t -> val_lists st !! r = Some row ->
          operands row i1 i2 x y ->
          (0 < occurrences r (rows t))%nat
          /\ ((y =? PrimFloat.zero)%float = true ->
              val_lists st' !! r =
                Some (row ++ replicate (occurrences r (rows t))
                                       (VFloat PrimFloat.infinity)))
          /\ ((y =? PrimFloat.zero)%float = false ->
              val_lists st' !! r =
                Some (row ++ replicate (occurrences r (rows t))
                                       (VFloat (x / y)%float))))
  /\ (exists st',
        add t c1 c2 name st = (Return (), st')
        /\ forall r row x y,
             r ∈ rows t -> val_lists st !! r = Some row ->
             operands row i1 i2 x y ->
             val_lists st' !! r =
               Some (row ++ replicate (occurrences r (rows t))
                                      (VFloat (x + y)%float)))
  /\ (exists st',
        sub t c1 c2 name st = (Return (), st')
        /\ forall r row x y,
             r ∈ rows t -> val_lists st !! r = Some row ->
             operands row i1 i2 x y ->
             val_lists st' !! r =
               Some (row ++ replicate (occurrences r (rows t))
                                      (VFloat (x - y)%float)))
  /\ (exists st',
        mul t c1 c2 name st = (Return (), st')
        /\ forall r row x y,
             r ∈ rows t -> val_lists st !! r = Some row ->
             operands row i1 i2 x y ->
             val_lists st' !! r =
               Some (row ++ replicate (occurrences r (rows t))
                                      (VFloat (x * y)%float))).
Proof.
  intros H1 H2 Hrows. repeat split.
  - destruct (apply_operation_total t c1 c2 name
                (fun x y => if negb (y =? PrimFloat.zero)%float
                            then truediv x y else py_float (VStr "inf"))
                (fun x y => if (y =? PrimFloat.zero)%float
                            then PrimFloat.infinity else (x / y)%float)
                st i1 i2) as (st' & Hrun & Hcells); try done.
    { intros x y. destruct (y =? PrimFloat.zero)%float eqn:Hy; cbn [negb].
      - apply float_inf.
      - unfold truediv. by rewrite Hy. }
    exists st'. split; [done|]. intros r row x y Hr Hrow Hxy.
    destruct (Hcells r row x y Hr Hrow Hxy) as [Hpos Hcell].
    split; [done|]. split; intros Hy; by rewrite Hy in Hcell.
  - destruct (apply_operation_total t c1 c2 name
                (fun x y => Return (x + y)%float) PrimFloat.add st i1 i2)
      as (st' & Hrun & Hcells); try done.
    exists st'. split; [done|]. intros r row x y Hr Hrow Hxy.
    by destruct (Hcells r row x y Hr Hrow Hxy).
  - destruct (apply_operation_total t c1 c2 name
                (fun x y => Return (x - y)%float) PrimFloat.sub st i1 i2)
      as (st' & Hrun & Hcells); try done.
    exists st'. split; [done|]. intros r row x y Hr Hrow Hxy.
    by destruct (Hcells r row x y Hr Hrow Hxy).
  - destruct (apply_operation_total t c1 c2 name
                (fun x y => Return (x * y)%float) PrimFloat.mul st i1 i2)
      as (st' & Hrun & Hcells); try done.
    exists st'. split; [done|]. intros r row x y Hr Hrow Hxy.
    by destruct (Hcells r row x y Hr Hrow Hxy).
Qed.

(** C4. When [_apply_operation] raises, whatever the exception, the store
    is the one before the call: no header list, no row and no dict has
    changed.  The results of all rows are computed before the first
    [append]. *)
Theorem apply_operation_atomic_on_failure t c1 c2 name op st e st' :
  _apply_operation t c1 c2 name op st = (Raise e, st') -> st' = st.
Proof.
  unfold _apply_operation. unfold bind at 1.
  pose proof (column_index_store t c1 st) as S1.
  destruct (column_index t c1 st) as [[i1|e1] st1]; cbn in S1; subst st1;
    [|by intros [= _ <-]].
  unfold bind at 1.
  pose proof (column_index_store t c2 st) as S2.
  destruct (column_index t c2 st) as [[i2|e2] st2]; cbn in S2; subst st2;
    [|by intros [= _ <-]].
  unfold bind at 1.
  pose proof (result_values_store (rows t) i1 i2 op st) as S3.
  destruct (result_values (rows t) i1 i2 op st) as [[xs|e3] st3] eqn:E;
    cbn in S3; subst st3; [|by intros [= _ <-]].
  pose proof (Forall2_length _ _ _ (result_values_inv _ _ _ _ _ _ _ E)) as Hlen.
  unfold bind at 1, str_list_append.
  by rewrite (append_values_eq _ 0) by (by rewrite drop_0).
Qed.

Lemma apply_operation_atomic_on_failure_witness :
  (add Example.t (ByName "id") (ByName "Age") "Sum" Example.st_bad).1
    = Raise ValueError
  /\ (add Example.t (ByName "id") (ByName "Age") "Sum" Example.st_bad).2
    = Example.st_bad.
Proof.
  split; [by vm_compute|].
  apply (apply_operation_atomic_on_failure Example.t (ByName "id")
           (ByName "Age") "Sum" (fun x y => Return (x + y)%float)
           Example.st_bad ValueError).
  by vm_compute.
Defined.

Lemma operands_intro row i1 i2 a b x y :
  getitem row i1 = Return a -> py_float a = Return x ->
  getitem row i2 = Return b -> py_float b = Return y ->
  operands row i1 i2 x y.
Proof. intros. by exists a, b. Qed.

Lemma div_zero_divisor_gives_infinity_witness :
  exists st',
    div Example.t (ByName "id") (ByName "Age") "Ratio" Example.st_zero
      = (Return (), st')
    /\ val_lists st' !! 1%positive
       = Some [VStr "1"; VStr "0"; VFloat PrimFloat.infinity].
Proof.
  destruct (div_zero_divisor_gives_infinity Example.t (ByName "id")
              (ByName "Age") "Ratio" Example.st_zero 0 1)
    as [(st' & Hrun & Hcells) _]; [done|done| |].
  - intros r [->|[->|[]%elem_of_nil]%elem_of_cons]%elem_of_cons.
    + exists [VStr "1"; VStr "0"], 1%float, 0%float. split; [done|].
      by apply (operands_intro _ _ _ (VStr "1") (VStr "0")).
    + exists [VStr "2"; VStr "40"], 2%float, 40%float. split; [done|].
      by apply (operands_intro _ _ _ (VStr "2") (VStr "40")).
  - exists st'. split; [done|].
    destruct (Hcells 1%positive [VStr "1"; VStr "0"] 1%float 0%float)
      as (_ & Hzero & _).
    + apply elem_of_cons. by left.
    + done.
    + by apply (operands_intro _ _ _ (VStr "1") (VStr "0")).
    + by apply Hzero.
Defined.

(** C7, amended. For a table whose rows are pairwise distinct list
    objects, whose columns resolve and whose operand cells all convert
    to floats on which the operation returns: [_apply_operation] returns,
    [result_column] is the new last entry of [table.headers], every row
    gets exactly one new last cell, the result of the operation on its
    two converted operands, and nothing else changes.  On the columns
    [["id", "Age"]] and rows [[["1", "30"], ["2", "40"]]], adding ["Age"]
    to ["Age"] as ["AgeTwice"] gives the rows [["1", "30", 60.0]] and
    [["2", "40", 80.0]] and the columns [["id", "Age", "AgeTwice"]]. *)
Theorem apply_operation_appends_result_column :
  (forall t c1 c2 name op st i1 i2 hs,
     column_index t c1 st = (Return i1, st) ->
     column_index t c2 st = (Return i2, st) ->
     str_lists st !! headers t = Some hs ->
     NoDup (rows t) ->
     (forall r, r ∈ rows t ->
        exists row x y z,
          val_lists st !! r = Some row /\ operands row i1 i2 x y
          /\ op x y = Return z) ->
     exists st',
       _apply_operation t c1 c2 name op st = (Return (), st')
       /\ str_lists st' !! headers t = Some (hs ++ [name])
       /\ (forall l, l <> headers t -> str_lists st' !! l = str_lists st !! l)
       /\ (forall r row x y z,
             r ∈ rows t -> val_lists st !! r = Some row ->
             operands row i1 i2 x y -> op x y = Return z ->
             val_lists st' !! r = Some (row ++ [VFloat z]))
       /\ (forall r, r ∉ rows t -> val_lists st' !! r = val_lists st !! r)
       /\ dicts st' = dicts st
       /\ files st' = files st)
  /\ (let run := add Example.t (ByName "Age") (ByName "Age") "AgeTwice"
                     Example.st in
      run.1 = Return ()
      /\ str_lists run.2 !! headers Example.t
         = Some ["id"; "Age"; "AgeTwice"]
      /\ (val_lists run.2 !!.) <$> rows Example.t
         = [Some [VStr "1"; VStr "30"; VFloat 60];
            Some [VStr "2"; VStr "40"; VFloat 80]]).
Proof.
  split; [|by vm_compute].
  intros t c1 c2 name op st i1 i2 hs H1 H2 Hh Hnd Hrows.
  destruct (apply_operation_Return t c1 c2 name op st i1 i2
              (value_of st i1 i2 op) H1 H2)
    as (st' & Hrun & Hstr & Hval & Hd & Hf).
  { intros r Hr. destruct (Hrows r Hr) as (row & x & y & z & Hrow & Hxy & Hz).
    by destruct (row_value_operands st i1 i2 op r row x y z Hrow Hxy Hz)
      as [-> ->]. }
  exists st'. split; [done|]. rewrite Hstr. repeat split; try done.
  - by rewrite lookup_alter_eq, Hh.
  - intros l Hl. by rewrite lookup_alter_ne.
  - intros r row x y z Hr Hrow Hxy Hz. rewrite Hval, Hrow. cbn.
    rewrite (occurrences_NoDup _ _ Hnd Hr).
    by destruct (row_value_operands st i1 i2 op r row x y z Hrow Hxy Hz)
      as [_ ->].
  - intros r Hr. rewrite Hval, (occurrences_notin _ _ Hr).
    destruct (val_lists st !! r); cbn; [|done]. by rewrite app_nil_r.
Qed.

Lemma apply_operation_appends_result_column_witness :
  exists st',
    add Example.t (ByName "Age") (ByName "Age") "AgeTwice" Example.st
      = (Return (), st')
    /\ str_lists st' !! 1%positive = Some ["id"; "Age"; "AgeTwice"]
    /\ val_lists st' !! 1%positive = Some [VStr "1"; VStr "30"; VFloat 60]
    /\ val_lists st' !! 2%positive = Some [VStr "2"; VStr "40"; VFloat 80].
Proof.
  destruct (proj1 apply_operation_appends_result_column Example.t
              (ByName "Age") (ByName "Age") "AgeTwice"
              (fun x y => Return (x + y)%float) Example.st 1 1 ["id"; "Age"])
    as (st' & Hrun & Hh & _ & Hcells & _); [done|done|done| | |].
  - apply NoDup_cons. split; [by intros ?%list_elem_of_singleton|].
    apply NoDup_singleton.
  - intros r [->|[->|[]%elem_of_nil]%elem_of_cons]%elem_of_cons.
    + exists [VStr "1"; VStr "30"], 30%float, 30%float, 60%float.
      split; [done|]. split; [|done].
      by apply (operands_intro _ _ _ (VStr "30") (VStr "30")).
    + exists [VStr "2"; VStr "40"], 40%float, 40%float, 80%float.
      split; [done|]. split; [|done].
      by apply (operands_intro _ _ _ (VStr "40") (VStr "40")).
  - exists st'. split; [done|]. split; [done|]. split.
    + apply (Hcells 1%positive [VStr "1"; VStr "30"] 30%float 30%float
                     60%float); try done.
      * apply elem_of_cons. by left.
      * by apply (operands_intro _ _ _ (VStr "30") (VStr "30")).
    + apply (Hcells 2%positive [VStr "2"; VStr "40"] 40%float 40%float
                     80%float); try done.
      * apply elem_of_cons. right. apply elem_of_cons. by left.
      * by apply (operands_intro _ _ _ (VStr "40") (VStr "40")).
Defined.

(** Without distinct rows the property fails.  [concat(t, t)] returns a
    table that holds every row object of [t] twice, and adding ["Age"] to
    ["Age"] on it gives every row two new cells, not one: the second loop
    appends to the row at each of its positions. *)
Lemma apply_operation_shared_rows :
  let concatenated := concat Example.t Example.t Example.st in
  let run := add Example.t_twice (ByName "Age") (ByName "Age") "AgeTwice"
                 concatenated.2 in
  concatenated.1 = Return Example.t_twice
  /\ run.1 = Return ()
  /\ (val_lists run.2 !!.) <$> rows Example.t_twice
     = [Some [VStr "1"; VStr "30"; VFloat 60; VFloat 60];
        Some [VStr "2"; VStr "40"; VFloat 80; VFloat 80];
        Some [VStr "1"; VStr "30"; VFloat 60; VFloat 60];
        Some [VStr "2"; VStr "40"; VFloat 80; VFloat 80]]
  /\ val_lists run.2 !! 1%positive
     <> Some ([VStr "1"; VStr "30"] ++ [VFloat 60]).
Proof. by vm_compute. Qed.

(** C3, the behaviour of the code on column indices outside
    [[0, len(headers))]: none of them raises [ValueError].  The index
    [-1] is accepted and counts from the end of each row; the index [5]
    on two columns raises [IndexError] from the row; on a table that has
    no row any index is accepted and the column is added. *)
Theorem apply_operation_index_not_validated :
  let negative := add Example.t (ByIndex (-1)) (ByIndex (-1)) "AgeTwice"
                      Example.st in
  let too_large := add Example.t (ByIndex 5) (ByIndex 1) "Sum" Example.st in
  let no_rows := add Example.t_empty (ByIndex 7) (ByIndex (-9)) "Sum"
                     Example.st in
  (negative.1 = Return ()
   /\ str_lists negative.2 !! 1%positive = Some ["id"; "Age"; "AgeTwice"]
   /\ val_lists negative.2 !! 1%positive
      = Some [VStr "1"; VStr "30"; VFloat 60]
   /\ val_lists negative.2 !! 2%positive
      = Some [VStr "2"; VStr "40"; VFloat 80])
  /\ too_large = (Raise IndexError, Example.st)
  /\ (no_rows.1 = Return ()
      /\ str_lists no_rows.2 !! 1%positive = Some ["id"; "Age"; "Sum"]).
Proof. by vm_compute. Qed.

(** A column name is checked: a name that is not in [table.headers]
    raises [ValueError], for either operand, and the store is as
    before. *)
Lemma list_index_absent name hs :
  name ∉ hs -> list_index name hs = Raise ValueError.
Proof.
  induction hs as [|h hs IH]; [done|].
  intros [Hne Hname]%not_elem_of_cons. cbn.
  rewrite decide_False by done. by rewrite IH.
Qed.

Lemma apply_operation_unknown_name1 t c2 name result op st hs :
  str_lists st !! headers t = Some hs -> name ∉ hs ->
  _apply_operation t (ByName name) c2 result op st = (Raise ValueError, st).
Proof.
  intros Hh Hname. unfold _apply_operation.
  unfold bind at 1. unfold column_index.
  rewrite (bind_Return _ _ _ _ _ (deref_Some str_lists _ _ _ Hh)).
  unfold lift. by rewrite (list_index_absent _ _ Hname).
Qed.

Lemma apply_operation_unknown_name2 t c1 i1 name result op st hs :
  column_index t c1 st = (Return i1, st) ->
  str_lists st !! headers t = Some hs -> name ∉ hs ->
  _apply_operation t c1 (ByName name) result op st = (Raise ValueError, st).
Proof.
  intros H1 Hh Hname. unfold _apply_operation.
  rewrite (bind_Return _ _ _ _ _ H1). cbv beta.
  unfold bind at 1. unfold column_index.
  rewrite (bind_Return _ _ _ _ _ (deref_Some str_lists _ _ _ Hh)).
  unfold lift. by rewrite (list_index_absent _ _ Hname).
Qed.

(** [set_column_types] does check the range of a column index, and
    raises [ValueError] outside of it. *)
Lemma set_column_type_index_checked t key value st hs :
  str_lists st !! headers t = Some hs ->
  key < 0 \/ Z.of_nat (length hs) <= key ->
  set_column_type t (ByIndex key) value st = (Raise ValueError, st).
Proof.
  intros Hh Hkey. unfold set_column_type.
  rewrite (bind_Return _ _ _ _ _ (deref_Some str_lists _ _ _ Hh)). cbv beta.
  assert (Hb : (key <? 0) || (Z.of_nat (length hs) <=? key) = true).
  { apply orb_true_iff. destruct Hkey; [left|right]; lia. }
  by rewrite Hb.
Qed.

(** ** [detect_column_types] *)

Lemma read_rows_ext rows st st' :
  val_lists st = val_lists st' ->
  (read_rows rows st).1 = (read_rows rows st').1.
Proof.
  intros Hv. unfold read_rows. induction rows as [|r rows IH]; [done|].
  cbn [map_st]. unfold bind at 1 3, deref. rewrite Hv.
  destruct (val_lists st' !! r) as [row|]; [|done].
  unfold bind, ret.
  destruct (map_st _ rows st) as [[rs|e] st1];
    destruct (map_st _ rows st') as [[rs'|e'] st1']; cbn in *; congruence.
Qed.

Lemma detect_columns_eq t i hs st :
  detect_columns t i hs st =
    ((detect_writes (read_rows (rows t) st).1 i hs).2,
     with_dicts st
       (alter (apply_writes (detect_writes (read_rows (rows t) st).1 i hs).1)
              (column_types t) (dicts st))).
Proof.
  assert (Hnone : forall st e,
            (Raise e : pyres unit, st) =
            (Raise e, with_dicts st (alter (apply_writes [])
                                           (column_types t) (dicts st)))).
  { intros s e. unfold with_dicts, apply_writes. cbn.
    rewrite alter_id by done. by destruct s. }
  revert i st. induction hs as [|header hs IH]; intros i st.
  - cbn. unfold ret, with_dicts, apply_writes. cbn.
    rewrite alter_id by done. by destruct st.
  - cbn [detect_columns detect_writes]. unfold bind at 1.
    pose proof (read_rows_store (rows t) st) as Hst.
    destruct (read_rows (rows t) st) as [[rs|e] st1] eqn:Hrs;
      cbn [fst snd] in *; subst st1; [|apply Hnone].
    unfold bind at 1, lift.
    destruct (col_values rs i) as [vals|e] eqn:Hcv; [|apply Hnone].
    unfold bind at 1, dict_setitem. rewrite IH.
    match goal with |- context [read_rows (rows t) ?s] =>
      rewrite (read_rows_ext (rows t) s st) by done end.
    rewrite Hrs. cbn [fst].
    destruct (detect_writes (Return rs) (i + 1) hs) as [ws r].
    cbn [fst snd]. unfold with_dicts. cbn [str_lists val_lists dicts files].
    by rewrite alter_alter_eq.
Qed.

Lemma apply_writes_union ws d : apply_writes ws d = apply_writes ws ∅ ∪ d.
Proof.
  unfold apply_writes. induction ws as [|w ws IH] using rev_ind.
  - cbn. by rewrite (left_id_L ∅ (∪)).
  - rewrite !foldl_app. cbn. rewrite IH. by rewrite insert_union_l.
Qed.

Lemma apply_writes_idemp ws d :
  apply_writes ws (apply_writes ws d) = apply_writes ws d.
Proof.
  rewrite (apply_writes_union ws (apply_writes ws d)).
  rewrite (apply_writes_union ws d).
  rewrite (assoc_L (∪)). by rewrite (idemp_L (∪)).
Qed.

(** C9. Running [detect_column_types] a second time returns what the
    first run returned and leaves the store of the first run as it is,
    so [column_types] is the same after two runs as after one; and a run
    changes no header list, no row and no file. *)
Theorem detect_column_types_idempotent t st :
  detect_column_types t (detect_column_types t st).2
    = detect_column_types t st
  /\ str_lists (detect_column_types t st).2 = str_lists st
  /\ val_lists (detect_column_types t st).2 = val_lists st
  /\ files (detect_column_types t st).2 = files st.
Proof.
  unfold detect_column_types, bind, deref.
  destruct (str_lists st !! headers t) as [hs|] eqn:Hh; cbn [fst snd].
  - rewrite (detect_columns_eq t 0 hs st). cbn [fst snd].
    split; [|done]. cbn [with_dicts str_lists]. rewrite Hh.
    rewrite detect_columns_eq.
    match goal with |- context [read_rows (rows t) (with_dicts st ?ds)] =>
      rewrite (read_rows_ext (rows t) (with_dicts st ds) st) by done end.
    f_equal. unfold with_dicts. cbn. f_equal.
    rewrite alter_alter_eq. apply alter_ext. intros d _. cbn.
    apply apply_writes_idemp.
  - by rewrite Hh.
Qed.

Lemma apply_writes_lookup ws d h ty :
  (forall w, w ∈ ws -> w.1 = h -> w.2 = ty) ->
  (exists w, w ∈ ws /\ w.1 = h) ->
  apply_writes ws d !! h = Some ty.
Proof.
  unfold apply_writes. induction ws as [|w ws IH] using rev_ind.
  - by intros _ (w & ?%elem_of_nil & _).
  - intros Hall (w' & Hin & Hw'). rewrite foldl_app. cbn [foldl].
    destruct (decide (w.1 = h)) as [Hw|Hw].
    + rewrite Hw, lookup_insert_eq. f_equal. apply Hall; [|done].
      apply elem_of_app. right. by apply list_elem_of_singleton.
    + rewrite lookup_insert_ne by done. apply IH.
      * intros w0 Hw0. apply Hall. apply elem_of_app. by left.
      * exists w'. split; [|done].
        apply elem_of_app in Hin as [Hin|Hin%list_elem_of_singleton]; [done|].
        by subst w'.
Qed.

Lemma getitem_nat {A} (l : list A) (n : nat) :
  getitem l (Z.of_nat n) =
    match l !! n with Some x => Return x | None => Raise IndexError end.
Proof.
  destruct (l !! n) as [x|] eqn:Hl; [by apply getitem_lookup|].
  apply lookup_ge_None in Hl. unfold getitem.
  destruct (Z.ltb_spec (Z.of_nat n) 0); [lia|].
  destruct (Z.ltb_spec (Z.of_nat n) 0); [lia|].
  destruct (Z.leb_spec (Z.of_nat (length l)) (Z.of_nat n)); [done|lia].
Qed.

(** The values read in a column of such cells all pass the [int] test. *)
Lemma col_values_int_like rs (n : nat) :
  (forall row, row ∈ rs -> exists v, row !! n = Some v /\ int_like v) ->
  exists vals,
    col_values rs (Z.of_nat n) = Return vals
    /\ forallb (fun val => isinstance val TInt) vals = true.
Proof.
  induction rs as [|row rs IH]; intros Hall; [by exists []|].
  destruct IH as (vals & Hvals & Hint).
  { intros row' Hin. apply Hall. apply elem_of_cons. by right. }
  destruct (Hall row) as (v & Hv & Hlike); [apply elem_of_cons; by left|].
  cbn [col_values]. rewrite getitem_nat, Hv, Hvals. cbn.
  destruct Hlike as [->|Hi]; [by exists vals|].
  destruct v; try done; eexists; (split; [done|]); exact Hint.
Qed.

(** A column that every row reaches is read without [IndexError]. *)
Lemma col_values_in_range rs (n : nat) :
  (forall row, row ∈ rs -> (n < length row)%nat) ->
  exists vals, col_values rs (Z.of_nat n) = Return vals.
Proof.
  induction rs as [|row rs IH]; intros Hall; [by exists []|].
  destruct IH as [vals Hvals].
  { intros row' Hin. apply Hall. apply elem_of_cons. by right. }
  cbn [col_values]. rewrite getitem_nat.
  destruct (lookup_lt_is_Some_2 row n) as [c Hc].
  { apply Hall. apply elem_of_cons. by left. }
  rewrite Hc, Hvals. cbn. destruct (is_not_None c); by eexists.
Qed.

(** The assignments to [h] when every cell of the columns named [h] is
    [int]-like: each one assigns [int], and there is one if [h] is a
    column. *)
Lemma detect_writes_int_like rs (n : nat) hs h :
  (forall row j, row ∈ rs -> hs !! j = Some h ->
     exists v, row !! (n + j)%nat = Some v /\ int_like v) ->
  let ws := (detect_writes (Return rs) (Z.of_nat n) hs).1 in
  (forall w, w ∈ ws -> w.1 = h -> w.2 = TInt)
  /\ (h ∈ hs -> exists w, w ∈ ws /\ w.1 = h).
Proof.
  revert n. induction hs as [|h0 hs IH]; intros n Hcol; cbn zeta.
  - split; [by intros w ?%elem_of_nil|by intros ?%elem_of_nil].
  - cbn [detect_writes].
    destruct (IH (S n)) as [IHa IHb].
    { intros row j Hrow Hj. rewrite Nat.add_succ_l, <- Nat.add_succ_r.
      by apply Hcol. }
    replace (Z.of_nat n + 1) with (Z.of_nat (S n)) by lia.
    destruct (decide (h0 = h)) as [->|Hne].
    + destruct (col_values_int_like rs n) as (vals & -> & Hint).
      { intros row Hrow. rewrite <- (Nat.add_0_r n). by apply Hcol. }
      unfold detected_type. rewrite Hint.
      destruct (detect_writes (Return rs) (Z.of_nat (S n)) hs) as [ws r].
      cbn [fst] in *. split.
      * intros w [->|Hw]%elem_of_cons; [done|]. by apply IHa.
      * intros _. exists (h, TInt). split; [|done]. apply elem_of_cons. by left.
    + split.
      * destruct (col_values rs (Z.of_nat n)); [|by intros w ?%elem_of_nil].
        destruct (detect_writes (Return rs) (Z.of_nat (S n)) hs) as [ws r].
        cbn [fst] in *. intros w [->|Hw]%elem_of_cons; [done|]. by apply IHa.
      * intros [?|Hin]%elem_of_cons; [done|].
        destruct (col_values_in_range rs n) as [vals ->].
        { intros row Hrow. apply list_elem_of_lookup in Hin as [j Hj].
          destruct (Hcol row (S j) Hrow Hj) as (v & Hcell & _).
          apply lookup_lt_Some in Hcell. lia. }
        destruct (detect_writes (Return rs) (Z.of_nat (S n)) hs) as [ws r].
        cbn [fst] in *. destruct (IHb Hin) as (w & Hw & Hwh).
        exists w. split; [|done]. apply elem_of_cons. by right.
Qed.

Lemma read_rows_Return rows st (P : list value -> Prop) :
  (forall r, r ∈ rows -> exists row, val_lists st !! r = Some row /\ P row) ->
  exists rs, (read_rows rows st).1 = Return rs /\ forall row, row ∈ rs -> P row.
Proof.
  unfold read_rows. induction rows as [|r rows IH]; intros Hall.
  - exists []. split; [done|]. by intros row ?%elem_of_nil.
  - destruct IH as (rs & Hrs & HP).
    { intros r' Hin. apply Hall. apply elem_of_cons. by right. }
    destruct (Hall r) as (row & Hrow & Hp); [apply elem_of_cons; by left|].
    exists (row :: rs). split.
    + cbn [map_st]. unfold bind at 1. unfold deref at 1. rewrite Hrow.
      unfold bind, ret.
      destruct (map_st (deref val_lists) rows st) as [[rs'|e] st1]; cbn in *;
        congruence.
    + intros row' [->|Hin]%elem_of_cons; [done|]. by apply HP.
Qed.

(** [detect_column_types] declares [int] every column name whose cells
    are all [int]-like. *)
Lemma detect_column_types_int_like t st hs d h :
  str_lists st !! headers t = Some hs ->
  dicts st !! column_types t = Some d ->
  h ∈ hs ->
  (forall r, r ∈ rows t ->
     exists row,
       val_lists st !! r = Some row
       /\ forall j, hs !! j = Some h ->
            exists v, row !! j = Some v /\ int_like v) ->
  exists d',
    dicts (detect_column_types t st).2 !! column_types t = Some d'
    /\ d' !! h = Some TInt.
Proof.
  intros Hh Hd Hin Hrows. unfold detect_column_types.
  rewrite (bind_Return _ _ _ _ _ (deref_Some str_lists _ _ _ Hh)).
  rewrite detect_columns_eq. cbn [snd with_dicts dicts].
  destruct (read_rows_Return (rows t) st _ Hrows) as (rs & -> & Hcol).
  rewrite lookup_alter_eq, Hd. cbn. eexists. split; [done|].
  destruct (detect_writes_int_like rs 0 hs h) as [Ha Hb].
  { intros row j Hrow Hj. by apply Hcol. }
  by apply apply_writes_lookup; [apply Ha|apply Hb].
Qed.

(** C10. When every cell of the columns named [h] is [None], which holds
    of every column of a table that has no row, [detect_column_types]
    sets [column_types[h]] to [int]: no value is left to test, and the
    [int] test comes first. *)
Theorem detect_column_types_null_column t st hs d h :
  str_lists st !! headers t = Some hs ->
  dicts st !! column_types t = Some d ->
  h ∈ hs ->
  (forall r, r ∈ rows t ->
     exists row,
       val_lists st !! r = Some row
       /\ forall j, hs !! j = Some h -> row !! j = Some VNone) ->
  exists d',
    dicts (detect_column_types t st).2 !! column_types t = Some d'
    /\ d' !! h = Some TInt.
Proof.
  intros Hh Hd Hin Hrows.
  apply (detect_column_types_int_like t st hs d h Hh Hd Hin).
  intros r Hr. destruct (Hrows r Hr) as (row & Hrow & Hnull).
  exists row. split; [done|]. intros j Hj. exists VNone.
  split; [by apply Hnull|by left].
Qed.

Lemma detect_column_types_null_column_witness :
  (exists d',
     dicts (detect_column_types Example.t Example.st_null).2 !! 1%positive
       = Some d'
     /\ d' !! "note" = Some TInt)
  /\ (exists d',
        dicts (detect_column_types Example.t_empty Example.st).2 !! 1%positive
          = Some d'
        /\ d' !! "Age" = Some TInt).
Proof.
  split.
  - apply (detect_column_types_null_column Example.t Example.st_null
             ["id"; "note"] {[ "id" := TStr; "note" := TStr ]} "note");
      [done|done| |].
    + apply elem_of_cons. right. apply elem_of_cons. by left.
    + intros r [->|[->|[]%elem_of_nil]%elem_of_cons]%elem_of_cons.
      * exists [VStr "1"; VNone]. split; [done|].
        by intros [|[|[|j]]].
      * exists [VStr "2"; VNone]. split; [done|].
        by intros [|[|[|j]]].
  - apply (detect_column_types_null_column Example.t_empty Example.st
             ["id"; "Age"] {[ "id" := TStr; "Age" := TStr ]} "Age");
      [done|done| |].
    + apply elem_of_cons. right. apply elem_of_cons. by left.
    + by intros r ?%elem_of_nil.
Defined.

(** Values that are all instances of [bool] are all instances of
    [int]. *)
Lemma all_bool_all_int vals :
  forallb (fun val => isinstance val TBool) vals = true ->
  forallb (fun val => isinstance val TInt) vals = true.
Proof.
  rewrite !forallb_forall. intros Hb val Hval. specialize (Hb val Hval).
  by destruct val.
Qed.

(** So the [bool] branch of [detect_column_types], tested after the
    [int] one, is never taken. *)
Lemma detected_type_never_bool vals : detected_type vals <> TBool.
Proof.
  unfold detected_type.
  destruct (forallb (fun val => isinstance val TInt) vals) eqn:Hi; [done|].
  destruct (forallb (fun val => isinstance val TFloat) vals); [done|].
  destruct (forallb (fun val => isinstance val TBool) vals) eqn:Hb.
  - apply all_bool_all_int in Hb. congruence.
  - by destruct (forallb (fun val => isinstance val TDatetime) vals).
Qed.

(** C1, what the code does instead. When every cell of the columns named
    [h] is [None] or a [bool], [detect_column_types] sets
    [column_types[h]] to [int], not to [bool]: every [bool] passes
    [isinstance(val, int)], which is tested first. *)
Theorem detect_column_types_bool_column_is_int t st hs d h :
  str_lists st !! headers t = Some hs ->
  dicts st !! column_types t = Some d ->
  h ∈ hs ->
  (forall r, r ∈ rows t ->
     exists row,
       val_lists st !! r = Some row
       /\ forall j, hs !! j = Some h ->
            exists v, row !! j = Some v /\ (v = VNone \/ exists b, v = VBool b)) ->
  exists d',
    dicts (detect_column_types t st).2 !! column_types t = Some d'
    /\ d' !! h = Some TInt
    /\ d' !! h <> Some TBool.
Proof.
  intros Hh Hd Hin Hrows.
  destruct (detect_column_types_int_like t st hs d h Hh Hd Hin)
    as (d' & Hd' & Hint).
  - intros r Hr. destruct (Hrows r Hr) as (row & Hrow & Hcol).
    exists row. split; [done|]. intros j Hj.
    destruct (Hcol j Hj) as (v & Hv & [->|[b ->]]).
    + exists VNone. split; [done|]. by left.
    + exists (VBool b). split; [done|]. by right.
  - exists d'. split; [done|]. split; [done|]. by rewrite Hint.
Qed.

Lemma detect_column_types_bool_column_is_int_witness :
  exists d',
    dicts (detect_column_types Example.t_flags Example.st_flags).2
      !! 1%positive = Some d'
    /\ d' !! "flag" = Some TInt
    /\ d' !! "flag" <> Some TBool.
Proof.
  apply (detect_column_types_bool_column_is_int Example.t_flags
           Example.st_flags ["flag"] {[ "flag" := TStr ]} "flag");
    [done|done| |].
  - apply elem_of_cons. by left.
  - intros r [->|[->|[]%elem_of_nil]%elem_of_cons]%elem_of_cons.
    + exists [VBool true]. split; [done|].
      intros [|[|j]]; [|done..]. intros _. exists (VBool true).
      split; [done|]. right. by exists true.
    + exists [VBool false]. split; [done|].
      intros [|[|j]]; [|done..]. intros _. exists (VBool false).
      split; [done|]. right. by exists false.
Defined.

(** ** [save_table] *)

Lemma read_rows_rows_are rows st rs :
  rows_are st rows rs -> read_rows rows st = (Return rs, st).
Proof.
  unfold read_rows. induction 1 as [|r row rows rs Hr _ IH]; [done|].
  cbn [map_st]. rewrite (bind_Return _ _ _ _ _ (deref_Some val_lists _ _ _ Hr)).
  by rewrite (bind_Return _ _ _ _ _ IH).
Qed.





Section writes.
Context {V : Type} (key : Z -> string) (val : Z -> V).
Context (key_inj : Inj eq eq key).


End writes.












(** ** [filter_rows] and [get_rows_by_number] *)

Lemma filtered_rows_sublist rows mask : sublist (filtered_rows rows mask) rows.
Proof.
  revert mask. induction rows as [|r rows IH]; intros [|v mask]; cbn;
    try apply sublist_nil_l.
  destruct (truth v); [by apply sublist_skip|by apply sublist_cons].
Qed.

Lemma filtered_rows_length rows mask :
  length mask = length rows ->
  length (filtered_rows rows mask) = length (List.filter truth mask).
Proof.
  revert mask. induction rows as [|r rows IH]; intros [|v mask] Hlen;
    try done. cbn. injection Hlen as Hlen.
  destruct (truth v); cbn; by rewrite IH.
Qed.

Lemma filtered_rows_all rows mask :
  length mask = length rows -> Forall (fun v => truth v = true) mask ->
  filtered_rows rows mask = rows.
Proof.
  revert mask. induction rows as [|r rows IH]; intros [|v mask] Hlen Hall;
    try done. cbn. injection Hlen as Hlen.
  apply Forall_cons in Hall as [-> Hall]. by rewrite IH.
Qed.

Lemma filtered_rows_none rows mask :
  Forall (fun v => truth v = false) mask -> filtered_rows rows mask = [].
Proof.
  revert mask. induction rows as [|r rows IH]; intros [|v mask] Hall;
    try done. cbn. apply Forall_cons in Hall as [-> Hall]. by apply IH.
Qed.

(** Position by position: a row is selected when its mask entry is
    true. *)
Lemma filtered_rows_elem rows mask r :
  r ∈ filtered_rows rows mask <->
  exists i v, rows !! i = Some r /\ mask !! i = Some v /\ truth v = true.
Proof.
  revert mask. induction rows as [|a rows IH]; intros [|v mask]; cbn.
  - split; [by intros ?%elem_of_nil|by intros (i & w & ? & _)].
  - split; [by intros ?%elem_of_nil|by intros (i & w & ? & _)].
  - split; [by intros ?%elem_of_nil|by intros (i & w & _ & ? & _)].
  - destruct (truth v) eqn:Hv.
    + rewrite elem_of_cons, IH. split.
      * intros [->|(i & w & Hr & Hm & Hw)]; [by exists 0%nat, v|].
        by exists (S i), w.
      * intros ([|i] & w & Hr & Hm & Hw); cbn in *.
        -- left. congruence.
        -- right. by exists i, w.
    + rewrite IH. split.
      * intros (i & w & Hr & Hm & Hw). by exists (S i), w.
      * intros ([|i] & w & Hr & Hm & Hw); cbn in *; [congruence|].
        by exists i, w.
Qed.

(** X1. [filter_rows] with a mask as long as [table.rows] returns the
    rows whose mask entry is true for [bool], in the order of the table:
    a sublist of the rows, all of them for a mask of true entries and
    none for a mask of false ones.  The entries are tested as [if include]
    tests them, so a non-empty string such as ["False"] selects its row.
    Without [copy_table] the store is as before; with it the new table
    shares [table.headers] and the row objects, and its [column_types] is
    a fresh dict with [str] for every header.  A mask of another length
    raises [ValueError] and changes nothing. *)
Theorem filter_rows_spec t mask copy st hs :
  str_lists st !! headers t = Some hs ->
  (length mask = length (rows t) ->
   exists sel st',
     filter_rows t mask copy st = (Return sel, st')
     /\ sublist (selected sel) (rows t)
     /\ (forall r, r ∈ selected sel <->
           exists i v, rows t !! i = Some r /\ mask !! i = Some v
                       /\ truth v = true)
     /\ length (selected sel) = length (List.filter truth mask)
     /\ (Forall (fun v => truth v = true) mask -> selected sel = rows t)
     /\ (Forall (fun v => truth v = false) mask -> selected sel = [])
     /\ str_lists st' = str_lists st
     /\ val_lists st' = val_lists st
     /\ files st' = files st
     /\ match sel with
        | Rows _ => copy = false /\ st' = st
        | Copy t' =>
            copy = true
            /\ headers t' = headers t
            /\ dicts st !! column_types t' = None
            /\ dicts st' =
                 <[column_types t' := Table_.default_types hs]> (dicts st)
        end)
  /\ (length mask <> length (rows t) ->
      filter_rows t mask copy st = (Raise ValueError, st)).
Proof.
  intros Hh. unfold filter_rows. split.
  - intros Hlen. rewrite Hlen, Nat.eqb_refl. cbn [negb].
    assert (Hprops :
      sublist (filtered_rows (rows t) mask) (rows t)
      /\ (forall r, r ∈ filtered_rows (rows t) mask <->
            exists i v, rows t !! i = Some r /\ mask !! i = Some v
                        /\ truth v = true)
      /\ length (filtered_rows (rows t) mask) = length (List.filter truth mask)
      /\ (Forall (fun v => truth v = true) mask ->
          filtered_rows (rows t) mask = rows t)
      /\ (Forall (fun v => truth v = false) mask ->
          filtered_rows (rows t) mask = [])).
    { split; [apply filtered_rows_sublist|].
      split; [apply filtered_rows_elem|].
      split; [by apply filtered_rows_length|].
      split; [by apply filtered_rows_all|apply filtered_rows_none]. }
    destruct Hprops as (H1 & H2 & H3 & H4 & H5).
    destruct copy.
    + rewrite (bind_Return _ _ _ _ _ (init_eq _ _ _ _ Hh)). unfold ret.
      eexists _, _. split; [done|]. cbn.
      repeat split; try done; try apply H2. apply fresh_dict_None.
    + unfold ret. eexists _, _. split; [done|]. cbn.
      repeat split; try done; apply H2.
  - intros Hlen. apply Nat.eqb_neq in Hlen. by rewrite Hlen.
Qed.

Lemma filter_rows_spec_witness :
  (exists sel st',
     filter_rows Example.t [VStr "False"; VStr ""] true Example.st
       = (Return sel, st')
     /\ selected sel = [1%positive])
  /\ filter_rows Example.t [VBool true] false Example.st
     = (Raise ValueError, Example.st).
Proof.
  split.
  - destruct (filter_rows_spec Example.t [VStr "False"; VStr ""] true
                Example.st ["id"; "Age"])
      as [(sel & st' & Hrun & Hsub & Hin & Hlen & _) _]; [done..|].
    exists sel, st'. split; [done|].
    destruct (selected sel) as [|r [|r' l]] eqn:Hsel; try done.
    assert (Hr : r ∈ [r]) by (apply elem_of_cons; by left).
    apply Hin in Hr as (i & v & Hi & Hv & Htrue).
    destruct i as [|[|i]]; vm_compute in Hi, Hv; try done.
    + by injection Hi as <-.
    + injection Hv as <-. done.
  - by apply (filter_rows_spec Example.t [VBool true] false Example.st
                ["id"; "Age"]).
Defined.

Lemma slice_in_range {A} (l : list A) (start stop : Z) :
  0 <= start <= Z.of_nat (length l) ->
  0 <= stop <= Z.of_nat (length l) ->
  slice l (Some start) (Some stop)
    = take (Z.to_nat (stop - start)) (drop (Z.to_nat start) l).
Proof.
  intros Hstart Hstop. unfold slice, slice_bound.
  destruct (Z.ltb_spec start 0); [lia|].
  destruct (Z.ltb_spec stop 0); [lia|].
  by rewrite !Z.min_l by lia.
Qed.

(** X2. Without [stop], [get_rows_by_number] selects the one row at
    position [start] when [0 <= start < len(table.rows)]; for every
    other [start], and so for every [start] on a table without rows, it
    raises [ValueError] and changes nothing. *)
Theorem get_rows_by_number_one_row t start copy st hs :
  str_lists st !! headers t = Some hs ->
  (0 <= start < Z.of_nat (length (rows t)) ->
   exists sel st' r,
     get_rows_by_number t start None copy st = (Return sel, st')
     /\ rows t !! Z.to_nat start = Some r
     /\ selected sel = [r])
  /\ (~ 0 <= start < Z.of_nat (length (rows t)) ->
      get_rows_by_number t start None copy st = (Raise ValueError, st)).
Proof.
  intros Hh. unfold get_rows_by_number. split.
  - intros Hstart.
    destruct (Z.leb_spec 0 start); [|lia].
    destruct (Z.ltb_spec start (Z.of_nat (length (rows t)))); [|lia].
    destruct (Z.leb_spec 0 (start + 1)); [|lia].
    destruct (Z.leb_spec (start + 1) (Z.of_nat (length (rows t)))); [|lia].
    cbn [andb negb orb]. rewrite slice_in_range by lia.
    replace (start + 1 - start) with 1 by lia.
    destruct (lookup_lt_is_Some_2 (rows t) (Z.to_nat start)) as [r Hr]; [lia|].
    rewrite (drop_S _ _ _ Hr). cbn [Z.to_nat Pos.to_nat Pos.iter_op take].
    change (Pos.to_nat 1) with 1%nat. cbn [take].
    destruct copy.
    + rewrite (bind_Return _ _ _ _ _ (init_eq _ _ _ _ Hh)). unfold ret.
      by eexists _, _, r.
    + unfold ret. by eexists _, _, r.
  - intros Hstart.
    destruct (Z.leb_spec 0 start); [|done].
    destruct (Z.ltb_spec start (Z.of_nat (length (rows t)))); [lia|done].
Qed.

Lemma get_rows_by_number_one_row_witness :
  (exists sel st',
     get_rows_by_number Example.t 1 None false Example.st = (Return sel, st')
     /\ selected sel = [2%positive])
  /\ get_rows_by_number Example.t 2 None false Example.st
     = (Raise ValueError, Example.st).
Proof.
  split.
  - destruct (get_rows_by_number_one_row Example.t 1 false Example.st
                ["id"; "Age"])
      as [(sel & st' & r & Hrun & Hr & Hsel) _]; [done|cbn; lia|].
    exists sel, st'. split; [done|]. vm_compute in Hr. by injection Hr as <-.
  - apply (get_rows_by_number_one_row Example.t 2 false Example.st
             ["id"; "Age"]); [done|]. cbn. lia.
Defined.

(** X3. With [0 <= start < len(table.rows)] and
    [0 <= stop <= len(table.rows)], [get_rows_by_number] selects the rows
    at the positions from [start] to [stop - 1]: [max(0, stop - start)]
    rows, so none, and no error, when [stop <= start].  Lists and files
    stay; with [copy_table] the new table shares [table.headers] and has
    a fresh [column_types].  Outside these bounds ([start = len] and
    negative numbers included) it raises [ValueError] and changes
    nothing. *)
Theorem get_rows_by_number_range t start stop copy st hs :
  str_lists st !! headers t = Some hs ->
  let len := Z.of_nat (length (rows t)) in
  (0 <= start < len /\ 0 <= stop <= len ->
   exists sel st',
     get_rows_by_number t start (Some stop) copy st = (Return sel, st')
     /\ selected sel
        = take (Z.to_nat (stop - start)) (drop (Z.to_nat start) (rows t))
     /\ Z.of_nat (length (selected sel)) = Z.max 0 (stop - start)
     /\ (stop <= start -> selected sel = [])
     /\ str_lists st' = str_lists st
     /\ val_lists st' = val_lists st
     /\ files st' = files st
     /\ match sel with
        | Rows _ => copy = false /\ st' = st
        | Copy t' =>
            copy = true
            /\ headers t' = headers t
            /\ dicts st !! column_types t' = None
            /\ dicts st' =
                 <[column_types t' := Table_.default_types hs]> (dicts st)
        end)
  /\ (~ (0 <= start < len /\ 0 <= stop <= len) ->
      get_rows_by_number t start (Some stop) copy st
        = (Raise ValueError, st)).
Proof.
  intros Hh len. unfold get_rows_by_number. fold len. split.
  - intros [Hstart Hstop].
    destruct (Z.leb_spec 0 start); [|lia].
    destruct (Z.ltb_spec start len); [|lia].
    destruct (Z.leb_spec 0 stop); [|lia].
    destruct (Z.leb_spec stop len); [|lia].
    cbn [andb negb orb]. rewrite slice_in_range by (subst len; lia).
    assert (Hlen : Z.of_nat (length (take (Z.to_nat (stop - start))
                                          (drop (Z.to_nat start) (rows t))))
                   = Z.max 0 (stop - start)).
    { rewrite length_take, length_drop. subst len. lia. }
    assert (Hnil : stop <= start ->
              take (Z.to_nat (stop - start)) (drop (Z.to_nat start) (rows t))
              = []).
    { intros Hle. replace (Z.to_nat (stop - start)) with 0%nat by lia. done. }
    destruct copy.
    + rewrite (bind_Return _ _ _ _ _ (init_eq _ _ _ _ Hh)). unfold ret.
      eexists _, _. split; [done|]. cbn.
      repeat split; try done. apply fresh_dict_None.
    + unfold ret. eexists _, _. split; [done|]. cbn. by repeat split.
  - intros Hbad.
    destruct (Z.leb_spec 0 start); destruct (Z.ltb_spec start len);
      destruct (Z.leb_spec 0 stop); destruct (Z.leb_spec stop len);
      cbn [andb negb orb]; try done; lia.
Qed.

Lemma get_rows_by_number_range_witness :
  (exists sel st',
     get_rows_by_number Example.t 0 (Some 2) false Example.st
       = (Return sel, st')
     /\ selected sel = [1%positive; 2%positive])
  /\ (exists sel st',
        get_rows_by_number Example.t 1 (Some 0) false Example.st
          = (Return sel, st')
        /\ selected sel = [])
  /\ get_rows_by_number Example.t 2 (Some 2) false Example.st
     = (Raise ValueError, Example.st).
Proof.
  split; [|split].
  - destruct (get_rows_by_number_range Example.t 0 2 false Example.st
                ["id"; "Age"])
      as [(sel & st' & Hrun & Hsel & _) _]; [done|cbn; lia|].
    by exists sel, st'.
  - destruct (get_rows_by_number_range Example.t 1 0 false Example.st
                ["id"; "Age"])
      as [(sel & st' & Hrun & _ & _ & Hnil & _) _]; [done|cbn; lia|].
    exists sel, st'. split; [done|]. apply Hnil. lia.
  - apply (get_rows_by_number_range Example.t 2 2 false Example.st
             ["id"; "Age"]); [done|]. cbn. lia.
Defined.

(** ** [set_column_types] *)

Lemma set_column_type_ok t key ty st hs h :
  str_lists st !! headers t = Some hs ->
  resolves hs key h ->
  set_column_type t key (Known ty) st =
    (Return (),
     with_dicts st (alter (insert h ty) (column_types t) (dicts st))).
Proof.
  intros Hh Hkey. unfold set_column_type.
  rewrite (bind_Return _ _ _ _ _ (deref_Some str_lists _ _ _ Hh)). cbv beta.
  destruct key as [i|name]; cbn in Hkey.
  - destruct Hkey as [Hi Hl].
    destruct (Z.ltb_spec i 0); [lia|].
    destruct (Z.leb_spec (Z.of_nat (length hs)) i); [lia|]. cbn [orb].
    unfold bind, lift. rewrite <- (Z2Nat.id i) by lia.
    by rewrite (getitem_lookup _ _ _ Hl).
  - destruct Hkey as [Hin ->]. by rewrite decide_True by done.
Qed.

Lemma set_column_type_bad t key value st hs :
  str_lists st !! headers t = Some hs ->
  (forall h, ~ resolves hs key h) \/ (exists name, value = OtherClass name) ->
  set_column_type t key value st = (Raise ValueError, st).
Proof.
  intros Hh Hbad. unfold set_column_type.
  rewrite (bind_Return _ _ _ _ _ (deref_Some str_lists _ _ _ Hh)). cbv beta.
  destruct key as [i|name].
  - destruct (Z.ltb_spec i 0); [done|].
    destruct (Z.leb_spec (Z.of_nat (length hs)) i); [done|]. cbn [orb].
    destruct (lookup_lt_is_Some_2 hs (Z.to_nat i)) as [h Hl]; [lia|].
    destruct Hbad as [Hno|[c ->]].
    + destruct (Hno h). split; [lia|done].
    + unfold bind, lift. rewrite <- (Z2Nat.id i) by lia.
      by rewrite (getitem_lookup _ _ _ Hl).
  - destruct (decide (name ∈ hs)) as [Hin|Hin]; [|done].
    destruct Hbad as [Hno|[c ->]]; [by destruct (Hno name)|done].
Qed.

Lemma set_column_types_run t items ws rest st hs :
  str_lists st !! headers t = Some hs ->
  valid_items hs items ws ->
  set_column_types t (items ++ rest) st =
    set_column_types t rest
      (with_dicts st (alter (apply_writes ws) (column_types t) (dicts st))).
Proof.
  intros Hh Hvalid. revert st Hh.
  induction Hvalid as [|[key value] [h ty] items ws [Hkey Hval] _ IH];
    intros st Hh.
  - cbn. unfold with_dicts, apply_writes. cbn. rewrite alter_id by done.
    by destruct st.
  - cbn in Hkey, Hval. subst value. cbn [app set_column_types].
    rewrite (bind_Return _ _ _ _ _ (set_column_type_ok _ _ _ _ _ _ Hh Hkey)).
    rewrite IH by done. unfold with_dicts. cbn.
    by rewrite alter_alter_eq.
Qed.

Lemma apply_writes_lookup_other ws d h :
  (forall w, w ∈ ws -> w.1 <> h) -> apply_writes ws d !! h = d !! h.
Proof.
  unfold apply_writes. induction ws as [|w ws IH] using rev_ind; [done|].
  intros Hall. rewrite foldl_app. cbn [foldl].
  rewrite lookup_insert_ne.
  - apply IH. intros w' Hw'. apply Hall. apply elem_of_app. by left.
  - apply Hall. apply elem_of_app. right. by apply list_elem_of_singleton.
Qed.

Lemma apply_writes_lookup_last pre h ty post d :
  (forall w, w ∈ post -> w.1 <> h) ->
  apply_writes (pre ++ (h, ty) :: post) d !! h = Some ty.
Proof.
  intros Hpost. unfold apply_writes. rewrite foldl_app. cbn [foldl].
  fold (apply_writes pre d).
  change (foldl _ ?m post) with (apply_writes post m).
  rewrite apply_writes_lookup_other by done. apply lookup_insert_eq.
Qed.

(** X4. When every key of [types_dict] names a column, by an index in
    [[0, len(headers))] or by a name of [headers], and every value is one
    of [int], [float], [bool], [str], [datetime], [set_column_types]
    returns, and [column_types] gives each column named the type of the
    last item that names it, by index or by name; the other keys of the
    dict, the other dicts, the lists and the files are as before. *)
Theorem set_column_types_assigns t items ws st hs d :
  str_lists st !! headers t = Some hs ->
  dicts st !! column_types t = Some d ->
  valid_items hs items ws ->
  exists st' d',
    set_column_types t items st = (Return (), st')
    /\ dicts st' !! column_types t = Some d'
    /\ (forall pre h ty post,
          ws = pre ++ (h, ty) :: post ->
          (forall w, w ∈ post -> w.1 <> h) ->
          d' !! h = Some ty)
    /\ (forall h, (forall w, w ∈ ws -> w.1 <> h) -> d' !! h = d !! h)
    /\ (forall l, l <> column_types t -> dicts st' !! l = dicts st !! l)
    /\ str_lists st' = str_lists st
    /\ val_lists st' = val_lists st
    /\ files st' = files st.
Proof.
  intros Hh Hd Hvalid.
  pose proof (set_column_types_run t items ws [] st hs Hh Hvalid) as Hrun.
  rewrite app_nil_r in Hrun. cbn in Hrun. unfold ret in Hrun.
  eexists _, _. split; [done|]. cbn.
  rewrite lookup_alter_eq, Hd. cbn. split; [done|]. repeat split.
  - intros pre h ty post -> Hpost. by apply apply_writes_lookup_last.
  - intros h Hnot. by apply apply_writes_lookup_other.
  - intros l Hl. by rewrite lookup_alter_ne.
Qed.

Lemma set_column_types_assigns_witness :
  exists st' d',
    set_column_types Example.t
      [(ByName "id", Known TInt); (ByIndex 0, Known TFloat)] Example.st
      = (Return (), st')
    /\ dicts st' !! 1%positive = Some d'
    /\ d' !! "id" = Some TFloat
    /\ d' !! "Age" = Some TStr.
Proof.
  destruct (set_column_types_assigns Example.t
              [(ByName "id", Known TInt); (ByIndex 0, Known TFloat)]
              [("id", TInt); ("id", TFloat)] Example.st ["id"; "Age"]
              {[ "id" := TStr; "Age" := TStr ]})
    as (st' & d' & Hrun & Hd' & Hlast & Hother & _); [done|done| |].
  - repeat constructor; cbn; try done; try lia; apply elem_of_cons; by left.
  - exists st', d'. split; [done|]. split; [done|]. split.
    + apply (Hlast [("id", TInt)] "id" TFloat []); [done|].
      by intros w ?%elem_of_nil.
    + rewrite Hother; [done|].
      intros w [->|[->|[]%elem_of_nil]%elem_of_cons]%elem_of_cons; done.
Defined.

(** X5. [set_column_types] is not atomic.  When the items [good] are
    valid and the next item is not (its key is out of range or not a
    header, or its value is not one of the five types), [ValueError] is
    raised, the assignments of [good] stay in [column_types] and the
    items after the invalid one are not applied. *)
Theorem set_column_types_keeps_earlier_items t good ws key value rest st hs :
  str_lists st !! headers t = Some hs ->
  valid_items hs good ws ->
  (forall h, ~ resolves hs key h) \/ (exists name, value = OtherClass name) ->
  set_column_types t (good ++ (key, value) :: rest) st =
    (Raise ValueError,
     with_dicts st (alter (apply_writes ws) (column_types t) (dicts st))).
Proof.
  intros Hh Hvalid Hbad.
  rewrite (set_column_types_run t good ws _ st hs Hh Hvalid).
  cbn [set_column_types]. unfold bind.
  by rewrite (set_column_type_bad _ _ _ _ hs).
Qed.

Lemma set_column_types_keeps_earlier_items_witness :
  let run := set_column_types Example.t
               [(ByName "id", Known TInt); (ByName "bogus", Known TInt);
                (ByName "Age", Known TFloat)] Example.st in
  run.1 = Raise ValueError
  /\ dicts run.2 !! 1%positive = Some {[ "id" := TInt; "Age" := TStr ]}.
Proof.
  cbn zeta.
  pose proof (set_column_types_keeps_earlier_items Example.t
                [(ByName "id", Known TInt)] [("id", TInt)]
                (ByName "bogus") (Known TInt) [(ByName "Age", Known TFloat)]
                Example.st ["id"; "Age"]) as Hrun.
  cbn [app] in Hrun. rewrite Hrun.
  - split; [done|]. by vm_compute.
  - done.
  - repeat constructor; apply elem_of_cons; by left.
  - left. intros h [Hin _].
    apply elem_of_cons in Hin as [?|Hin]; [done|].
    apply elem_of_cons in Hin as [?|Hin]; [done|]. by apply elem_of_nil in Hin.
Defined.

Lemma resolves_dec hs key :
  (exists h, resolves hs key h) \/ (forall h, ~ resolves hs key h).
Proof.
  destruct key as [i|name]; cbn.
  - destruct (decide (0 <= i < Z.of_nat (length hs))) as [Hi|Hi].
    + destruct (lookup_lt_is_Some_2 hs (Z.to_nat i)) as [h Hl]; [lia|].
      left. by exists h.
    + right. by intros h [? _].
  - destruct (decide (name ∈ hs)) as [Hin|Hin].
    + left. by exists name.
    + right. by intros h [? _].
Qed.

Lemma set_column_type_cases t key value st :
  (exists h ty, set_column_type t key value st =
     (Return (),
      with_dicts st (alter (insert h ty) (column_types t) (dicts st))))
  \/ (exists e, set_column_type t key value st = (Raise e, st)
                /\ (e = ValueError \/ e = StoreFault)).
Proof.
  destruct (str_lists st !! headers t) as [hs|] eqn:Hh.
  - destruct value as [ty|c].
    + destruct (resolves_dec hs key) as [[h Hkey]|Hno].
      * left. exists h, ty. by apply (set_column_type_ok _ _ _ _ hs).
      * right. exists ValueError. split; [|by left].
        apply (set_column_type_bad _ _ _ _ hs); [done|by left].
    + right. exists ValueError. split; [|by left].
      apply (set_column_type_bad _ _ _ _ hs); [done|]. right. by exists c.
  - right. exists StoreFault. split; [|by right].
    unfold set_column_type, bind, deref. by rewrite Hh.
Qed.

Lemma set_column_types_run_frame t items st r st' :
  set_column_types t items st = (r, st') ->
  str_lists st' = str_lists st
  /\ val_lists st' = val_lists st
  /\ files st' = files st
  /\ (forall l, l <> column_types t -> dicts st' !! l = dicts st !! l)
  /\ (forall e, r = Raise e -> e = ValueError \/ e = StoreFault).
Proof.
  revert st. induction items as [|[key value] items IH]; intros st.
  - cbn. unfold ret. intros [= <- <-]. by repeat split.
  - cbn [set_column_types]. unfold bind.
    destruct (set_column_type_cases t key value st)
      as [(h & ty & ->)|(e & -> & He)].
    + intros Hrun. destruct (IH _ Hrun) as (H1 & H2 & H3 & H4 & H5).
      cbn in *. split; [done|]. split; [done|]. split; [done|].
      split; [|done].
      intros l Hl. rewrite H4 by done. by rewrite lookup_alter_ne.
    + intros [= <- <-]. split; [done|]. split; [done|]. split; [done|].
      split; [done|]. by intros e' [= <-].
Qed.

(** X6. Whatever [types_dict] holds, [set_column_types] changes no
    header list, no row, no file and no dict other than
    [table.column_types], and the only exception it raises is
    [ValueError] (in the model also the fault of a table whose header
    list is not in the store). *)
Theorem set_column_types_frame t items st :
  let run := set_column_types t items st in
  str_lists run.2 = str_lists st
  /\ val_lists run.2 = val_lists st
  /\ files run.2 = files st
  /\ (forall l, l <> column_types t -> dicts run.2 !! l = dicts st !! l)
  /\ (forall e, run.1 = Raise e -> e = ValueError \/ e = StoreFault).
Proof.
  cbn zeta. destruct (set_column_types t items st) as [r st'] eqn:Hrun.
  by apply (set_column_types_run_frame t items st).
Qed.

(** ** [detect_column_types], column by column *)

Lemma alter_Some {A} (f : A -> A) (l : loc) (m : gmap loc A) x :
  m !! l = Some x -> alter f l m = <[l := f x]> m.
Proof.
  intros Hl. apply map_eq. intros l'. destruct (decide (l' = l)) as [->|Hne].
  - by rewrite lookup_alter_eq, lookup_insert_eq, Hl.
  - by rewrite lookup_alter_ne, lookup_insert_ne.
Qed.

Lemma col_values_column_values rs (n : nat) :
  (forall row, row ∈ rs -> (n < length row)%nat) ->
  col_values rs (Z.of_nat n) = Return (column_values rs n).
Proof.
  unfold column_values.
  induction rs as [|row rs IH]; intros Hall; [done|].
  cbn [col_values omap list_omap]. rewrite getitem_nat.
  destruct (lookup_lt_is_Some_2 row n) as [c Hc].
  { apply Hall. apply elem_of_cons. by left. }
  rewrite Hc, IH.
  - cbn. by destruct (is_not_None c).
  - intros row' Hin. apply Hall. apply elem_of_cons. by right.
Qed.

Lemma col_values_short rs (n : nat) row :
  row ∈ rs -> (length row <= n)%nat ->
  col_values rs (Z.of_nat n) = Raise IndexError.
Proof.
  intros Hin Hlen. induction rs as [|row' rs IH]; [by apply elem_of_nil in Hin|].
  cbn [col_values]. rewrite getitem_nat.
  destruct (row' !! n) as [c|] eqn:Hc; [|done].
  apply elem_of_cons in Hin as [->|Hin].
  { apply lookup_lt_Some in Hc. lia. }
  rewrite (IH Hin). cbn. by destruct (is_not_None c).
Qed.

Lemma column_writes_cons rs n h hs :
  column_writes rs n (h :: hs) =
    (h, detected_type (column_values rs n)) :: column_writes rs (S n) hs.
Proof.
  unfold column_writes. cbn [imap]. rewrite Nat.add_0_r. f_equal.
  apply imap_ext. intros j h' _. cbn. by rewrite Nat.add_succ_r.
Qed.

(** The loop on the first [k] columns, which every row reaches; it ends
    there, or stops at column [k] on a row that has no such cell. *)
Lemma detect_writes_columns rs (n k : nat) hs :
  (k <= length hs)%nat ->
  (forall row, row ∈ rs -> (n + k <= length row)%nat) ->
  ((k < length hs)%nat ->
   exists row, row ∈ rs /\ length row = (n + k)%nat) ->
  detect_writes (Return rs) (Z.of_nat n) hs =
    (column_writes rs n (take k hs),
     if decide (k < length hs)%nat then Raise IndexError else Return ()).
Proof.
  revert n hs. induction k as [|k IH]; intros n hs Hk Hall Hshort.
  - destruct hs as [|h hs]; [done|]. cbn [detect_writes].
    destruct Hshort as (row & Hin & Hlen); [cbn; lia|].
    rewrite (col_values_short rs n row) by (done || lia).
    by rewrite decide_True by (cbn; lia).
  - destruct hs as [|h hs]; [cbn in Hk; lia|]. cbn [detect_writes].
    rewrite col_values_column_values.
    2:{ intros row Hin. specialize (Hall row Hin). lia. }
    replace (Z.of_nat n + 1) with (Z.of_nat (S n)) by lia.
    rewrite (IH (S n) hs).
    + cbn [take]. rewrite column_writes_cons. cbn [length].
      destruct (decide (k < length hs)%nat);
        [by rewrite decide_True by lia|by rewrite decide_False by lia].
    + cbn in Hk. lia.
    + intros row Hin. specialize (Hall row Hin). lia.
    + intros Hlt. destruct Hshort as (row & Hin & Hlen); [cbn; lia|].
      exists row. split; [done|lia].
Qed.

Lemma column_writes_elem rs n hs w :
  w ∈ column_writes rs n hs <->
  exists j, hs !! j = Some w.1
            /\ w.2 = detected_type (column_values rs (n + j)).
Proof.
  unfold column_writes. rewrite elem_of_lookup_imap. split.
  - intros (j & h & -> & Hj). by exists j.
  - intros (j & Hj & Hw). exists j, w.1. split; [|done].
    destruct w as [h ty]. cbn in *. by subst ty.
Qed.

(** How [detect_column_types] runs on rows that all reach the first [k]
    columns. *)
Lemma detect_column_types_run t st hs d rs (k : nat) :
  str_lists st !! headers t = Some hs ->
  dicts st !! column_types t = Some d ->
  rows_are st (rows t) rs ->
  (k <= length hs)%nat ->
  (forall row, row ∈ rs -> (k <= length row)%nat) ->
  ((k < length hs)%nat -> exists row, row ∈ rs /\ length row = k) ->
  detect_column_types t st =
    (if decide (k < length hs)%nat then Raise IndexError else Return (),
     with_dicts st
       (<[column_types t := apply_writes (column_writes rs 0 (take k hs)) d]>
          (dicts st))).
Proof.
  intros Hh Hd Hrows Hk Hall Hshort. unfold detect_column_types.
  rewrite (bind_Return _ _ _ _ _ (deref_Some str_lists _ _ _ Hh)). cbv beta.
  rewrite detect_columns_eq, (read_rows_rows_are _ _ _ Hrows). cbn [fst].
  change 0 with (Z.of_nat 0).
  rewrite (detect_writes_columns rs 0 k hs) by done. cbn [fst snd].
  by rewrite (alter_Some _ _ _ d).
Qed.

Lemma column_writes_app rs n hs1 hs2 :
  column_writes rs n (hs1 ++ hs2) =
    column_writes rs n hs1 ++ column_writes rs (n + length hs1) hs2.
Proof.
  unfold column_writes. rewrite imap_app. f_equal.
  apply imap_ext. intros j h _. cbn. f_equal. f_equal. f_equal. lia.
Qed.

(** A dict after the assignments of the columns [hs]: the last column
    of a name decides, and the other keys stay. *)
Lemma apply_column_writes_lookup rs hs d :
  (forall j h, hs !! j = Some h ->
     (forall j', (j < j')%nat -> hs !! j' <> Some h) ->
     apply_writes (column_writes rs 0 hs) d !! h
       = Some (detected_type (column_values rs j)))
  /\ (forall h, h ∉ hs -> apply_writes (column_writes rs 0 hs) d !! h = d !! h).
Proof.
  split.
  - intros j h Hj Hlast.
    rewrite <- (take_drop_middle hs j h Hj) at 1.
    rewrite column_writes_app, column_writes_cons. cbn [Nat.add].
    rewrite length_take_le by (apply lookup_lt_Some in Hj; lia).
    apply apply_writes_lookup_last.
    intros w (j' & Hj' & _)%column_writes_elem Hw.
    rewrite lookup_drop in Hj'. apply (Hlast (S j + j')%nat); [lia|].
    by rewrite Hj', Hw.
  - intros h Hnot. apply apply_writes_lookup_other.
    intros w (j & Hj & _)%column_writes_elem Hw. apply Hnot.
    rewrite <- Hw. by apply list_elem_of_lookup_2 in Hj.
Qed.

Lemma column_values_elem rs j v :
  v ∈ column_values rs j <->
  exists row, row ∈ rs /\ row !! j = Some v /\ v <> VNone.
Proof.
  unfold column_values. rewrite list_elem_of_In, filter_In.
  rewrite <- list_elem_of_In, list_elem_of_omap. split.
  - intros [(row & Hin & Hv) Hnot]. exists row. split; [done|].
    split; [done|]. by intros ->.
  - intros (row & Hin & Hv & Hnot). split; [by exists row|].
    by destruct v.
Qed.

Lemma detected_type_mixed vals v1 v2 :
  v1 ∈ vals -> v2 ∈ vals ->
  (forall ty, ty <> TStr -> isinstance v1 ty && isinstance v2 ty = false) ->
  detected_type vals = TStr.
Proof.
  intros H1 H2 Hmix. unfold detected_type.
  assert (Hno : forall ty, ty <> TStr ->
            forallb (fun val => isinstance val ty) vals = false).
  { intros ty Hty. apply not_true_is_false. intros Hall.
    rewrite forallb_forall in Hall.
    specialize (Hmix ty Hty).
    rewrite (Hall v1), (Hall v2) in Hmix by by apply list_elem_of_In.
    done. }
  by rewrite !Hno.
Qed.

Lemma detected_type_uniform vals ty :
  ty = TFloat \/ ty = TDatetime ->
  vals <> [] ->
  (forall v, v ∈ vals -> isinstance v ty = true) ->
  detected_type vals = ty.
Proof.
  intros Hty Hne Hall. unfold detected_type.
  destruct vals as [|v vals]; [done|].
  assert (Hyes : forallb (fun val => isinstance val ty) (v :: vals) = true).
  { apply forallb_forall. intros v' Hin. apply Hall. by apply list_elem_of_In. }
  pose proof (Hall v (list_elem_of_here _ _)) as Hv.
  destruct Hty as [-> | ->].
  - rewrite Hyes. cbn [forallb]. by destruct v.
  - rewrite Hyes. cbn [forallb]. by destruct v.
Qed.

(** On rows that reach every column, [detect_column_types] returns, and
    the type of a name is the one detected in its last column. *)
Lemma detect_column_types_column t st hs d rs :
  str_lists st !! headers t = Some hs ->
  dicts st !! column_types t = Some d ->
  rows_are st (rows t) rs ->
  (forall row, row ∈ rs -> (length hs <= length row)%nat) ->
  exists d',
    detect_column_types t st =
      (Return (), with_dicts st (<[column_types t := d']> (dicts st)))
    /\ (forall j h, hs !! j = Some h ->
          (forall j', (j < j')%nat -> hs !! j' <> Some h) ->
          d' !! h = Some (detected_type (column_values rs j)))
    /\ (forall h, h ∉ hs -> d' !! h = d !! h).
Proof.
  intros Hh Hd Hrows Hall.
  rewrite (detect_column_types_run t st hs d rs (length hs)); try done.
  - rewrite decide_False by lia. rewrite firstn_all.
    eexists. split; [done|]. apply apply_column_writes_lookup.
  - lia.
Qed.

(** X7. On a table whose rows all have a cell for every header,
    [detect_column_types] returns and changes [column_types] only: a
    column name gets the type that the [if]/[elif] chain gives to the
    cells other than [None] of its column (of the last column of that
    name, when a name is repeated), and the keys that are not headers
    keep their entry. *)
Theorem detect_column_types_classifies_columns t st hs d rs :
  str_lists st !! headers t = Some hs ->
  dicts st !! column_types t = Some d ->
  rows_are st (rows t) rs ->
  (forall row, row ∈ rs -> (length hs <= length row)%nat) ->
  exists d',
    detect_column_types t st =
      (Return (), with_dicts st (<[column_types t := d']> (dicts st)))
    /\ (forall j h, hs !! j = Some h ->
          (forall j', (j < j')%nat -> hs !! j' <> Some h) ->
          d' !! h = Some (detected_type (column_values rs j)))
    /\ (forall h, h ∉ hs -> d' !! h = d !! h).
Proof.
  intros Hh Hd Hrows Hall.
  rewrite (detect_column_types_run t st hs d rs (length hs)); try done.
  - rewrite decide_False by lia. rewrite firstn_all.
    eexists. split; [done|]. apply apply_column_writes_lookup.
  - lia.
Qed.

Lemma detect_column_types_classifies_columns_witness :
  exists d',
    dicts (detect_column_types Example.t st_typed).2 !! 1%positive = Some d'
    /\ d' !! "n" = Some TInt /\ d' !! "x" = Some TFloat
    /\ d' !! "s" = Some TStr /\ d' !! "m" = Some TStr.
Proof.
  destruct (detect_column_types_classifies_columns Example.t st_typed
              ["n"; "x"; "s"; "m"]
              {[ "n" := TStr; "x" := TStr; "s" := TStr; "m" := TStr ]}
              [[VInt 1; VFloat 1.5; VStr "a"; VInt 1];
               [VBool true; VNone; VNone; VFloat 2.5]])
    as (d' & -> & Hcol & _).
  - done.
  - done.
  - by repeat constructor.
  - intros row [->|[->|[]%elem_of_nil]%elem_of_cons]%elem_of_cons; cbn; lia.
  - exists d'. split; [apply lookup_insert_eq|].
    repeat split.
    + apply (Hcol 0%nat); [done|]. by intros [|[|[|[|j']]]]; [lia|..].
    + apply (Hcol 1%nat); [done|]. by intros [|[|[|[|j']]]]; [lia|lia|..].
    + apply (Hcol 2%nat); [done|]. by intros [|[|[|[|j']]]]; [lia|lia|lia|..].
    + apply (Hcol 3%nat); [done|].
      by intros [|[|[|[|j']]]]; [lia|lia|lia|lia|..].
Defined.

(** X8. When some row has only [k] cells, with [k < len(headers)], and
    every row has at least [k], [detect_column_types] raises
    [IndexError] at column [k]; the first [k] columns have been assigned
    their types by then and stay assigned, the other keys are as
    before. *)
Theorem detect_column_types_short_row t st hs d rs (k : nat) :
  str_lists st !! headers t = Some hs ->
  dicts st !! column_types t = Some d ->
  rows_are st (rows t) rs ->
  (k < length hs)%nat ->
  (forall row, row ∈ rs -> (k <= length row)%nat) ->
  (exists row, row ∈ rs /\ length row = k) ->
  exists d',
    detect_column_types t st =
      (Raise IndexError,
       with_dicts st (<[column_types t := d']> (dicts st)))
    /\ (forall j h, (j < k)%nat -> hs !! j = Some h ->
          (forall j', (j < j' < k)%nat -> hs !! j' <> Some h) ->
          d' !! h = Some (detected_type (column_values rs j)))
    /\ (forall h, h ∉ take k hs -> d' !! h = d !! h).
Proof.
  intros Hh Hd Hrows Hk Hall Hshort.
  rewrite (detect_column_types_run t st hs d rs k); try done; [|lia].
  rewrite decide_True by done. eexists. split; [done|].
  destruct (apply_column_writes_lookup rs (take k hs) d) as [Hcol Hother].
  split; [|done].
  intros j h Hj Hjh Hlast. apply Hcol.
  - by rewrite lookup_take_lt.
  - intros j' Hlt. destruct (decide (j' < k)%nat) as [Hj'|Hj'].
    + rewrite lookup_take_lt by done. apply Hlast. lia.
    + by rewrite lookup_take_ge by lia.
Qed.

Lemma detect_column_types_short_row_witness :
  let run := detect_column_types Example.t st_ragged in
  run.1 = Raise IndexError
  /\ dicts run.2 !! 1%positive
     = Some {[ "n" := TInt; "x" := TFloat; "s" := TStr; "m" := TStr ]}.
Proof.
  cbn zeta.
  destruct (detect_column_types_short_row Example.t st_ragged
              ["n"; "x"; "s"; "m"]
              {[ "n" := TStr; "x" := TStr; "s" := TStr; "m" := TStr ]}
              [[VInt 1; VFloat 1.5; VStr "a"; VInt 1]; [VBool true; VNone]]
              2)
    as (d' & -> & Hcol & Hother).
  - done.
  - done.
  - by repeat constructor.
  - cbn. lia.
  - intros row [->|[->|[]%elem_of_nil]%elem_of_cons]%elem_of_cons; cbn; lia.
  - eexists. split; [apply elem_of_cons; right; apply elem_of_cons; by left|].
    done.
  - split; [done|]. cbn. rewrite lookup_insert_eq. f_equal.
    apply map_eq. intros h.
    destruct (decide (h = "n")) as [->|Hn].
    { rewrite (Hcol 0%nat "n"); [by vm_compute|lia|done|].
      by intros [|[|j']]; [lia| |lia]. }
    destruct (decide (h = "x")) as [->|Hx].
    { rewrite (Hcol 1%nat "x"); [by vm_compute|lia|done|]. intros j'. lia. }
    rewrite Hother.
    + by rewrite !(lookup_insert_ne _ "n"), !(lookup_insert_ne _ "x") by done.
    + by intros [->|[->|[]%elem_of_nil]%elem_of_cons]%elem_of_cons.
Defined.

(** X9. A column with two cells other than [None] that share none of
    the classes [int], [float], [bool], [datetime] is declared [str]: a
    column with a [str] cell (take it twice), and also a column that
    mixes an [int] cell with a [float] cell, which is not declared
    [float]. *)
Theorem detect_column_types_mixed_column_is_str t st hs d rs j h
    row1 row2 v1 v2 :
  str_lists st !! headers t = Some hs ->
  dicts st !! column_types t = Some d ->
  rows_are st (rows t) rs ->
  (forall row, row ∈ rs -> (length hs <= length row)%nat) ->
  hs !! j = Some h ->
  (forall j', (j < j')%nat -> hs !! j' <> Some h) ->
  row1 ∈ rs -> row1 !! j = Some v1 -> v1 <> VNone ->
  row2 ∈ rs -> row2 !! j = Some v2 -> v2 <> VNone ->
  (forall ty, ty <> TStr -> isinstance v1 ty && isinstance v2 ty = false) ->
  exists d',
    detect_column_types t st =
      (Return (), with_dicts st (<[column_types t := d']> (dicts st)))
    /\ d' !! h = Some TStr.
Proof.
  intros Hh Hd Hrows Hall Hj Hlast Hr1 Hc1 Hn1 Hr2 Hc2 Hn2 Hmix.
  destruct (detect_column_types_column t st hs d rs Hh Hd Hrows Hall)
    as (d' & Hrun & Hcol & _).
  exists d'. split; [done|]. rewrite (Hcol j h Hj Hlast). f_equal.
  apply (detected_type_mixed _ v1 v2); [| |done].
  - apply column_values_elem. by exists row1.
  - apply column_values_elem. by exists row2.
Qed.

Lemma detect_column_types_mixed_column_is_str_witness :
  exists d',
    dicts (detect_column_types Example.t st_typed).2 !! 1%positive = Some d'
    /\ d' !! "m" = Some TStr.
Proof.
  destruct (detect_column_types_mixed_column_is_str Example.t st_typed
              ["n"; "x"; "s"; "m"]
              {[ "n" := TStr; "x" := TStr; "s" := TStr; "m" := TStr ]}
              [[VInt 1; VFloat 1.5; VStr "a"; VInt 1];
               [VBool true; VNone; VNone; VFloat 2.5]]
              3 "m"
              [VInt 1; VFloat 1.5; VStr "a"; VInt 1]
              [VBool true; VNone; VNone; VFloat 2.5]
              (VInt 1) (VFloat 2.5))
    as (d' & -> & Hm); try done.
  - by repeat constructor.
  - intros row [->|[->|[]%elem_of_nil]%elem_of_cons]%elem_of_cons; cbn; lia.
  - by intros [|[|[|[|j']]]]; [lia|lia|lia|lia|..].
  - apply elem_of_cons. by left.
  - apply elem_of_cons. right. apply elem_of_cons. by left.
  - by intros [].
  - exists d'. split; [apply lookup_insert_eq|done].
Defined.

(** X10. A column whose cells other than [None] are all [float], or all
    [datetime], and which has at least one such cell, is declared
    [float], respectively [datetime]. *)
Theorem detect_column_types_uniform_column t st hs d rs j h ty :
  str_lists st !! headers t = Some hs ->
  dicts st !! column_types t = Some d ->
  rows_are st (rows t) rs ->
  (forall row, row ∈ rs -> (length hs <= length row)%nat) ->
  hs !! j = Some h ->
  (forall j', (j < j')%nat -> hs !! j' <> Some h) ->
  ty = TFloat \/ ty = TDatetime ->
  (forall row v, row ∈ rs -> row !! j = Some v ->
     v = VNone \/ isinstance v ty = true) ->
  (exists row v, row ∈ rs /\ row !! j = Some v /\ v <> VNone) ->
  exists d',
    detect_column_types t st =
      (Return (), with_dicts st (<[column_types t := d']> (dicts st)))
    /\ d' !! h = Some ty.
Proof.
  intros Hh Hd Hrows Hall Hj Hlast Hty Hcells (row & v & Hrow & Hv & Hnot).
  destruct (detect_column_types_column t st hs d rs Hh Hd Hrows Hall)
    as (d' & Hrun & Hcol & _).
  exists d'. split; [done|]. rewrite (Hcol j h Hj Hlast). f_equal.
  apply detected_type_uniform; [done| |].
  - intros Hnil. assert (Hin : v ∈ column_values rs j).
    { apply column_values_elem. by exists row. }
    rewrite Hnil in Hin. by apply elem_of_nil in Hin.
  - intros v' (row' & Hrow' & Hv' & Hnot')%column_values_elem.
    by destruct (Hcells row' v' Hrow' Hv').
Qed.

Lemma detect_column_types_uniform_column_witness :
  exists d',
    dicts (detect_column_types Example.t st_typed).2 !! 1%positive = Some d'
    /\ d' !! "x" = Some TFloat.
Proof.
  destruct (detect_column_types_uniform_column Example.t st_typed
              ["n"; "x"; "s"; "m"]
              {[ "n" := TStr; "x" := TStr; "s" := TStr; "m" := TStr ]}
              [[VInt 1; VFloat 1.5; VStr "a"; VInt 1];
               [VBool true; VNone; VNone; VFloat 2.5]]
              1 "x" TFloat)
    as (d' & -> & Hx); try done.
  - by repeat constructor.
  - intros row [->|[->|[]%elem_of_nil]%elem_of_cons]%elem_of_cons; cbn; lia.
  - by intros [|[|[|[|j']]]]; [lia|lia|..].
  - by left.
  - intros row v [->|[->|[]%elem_of_nil]%elem_of_cons]%elem_of_cons [= <-];
      [by right|by left].
  - eexists _, _. split; [apply elem_of_cons; by left|]. by split.
  - exists d'. split; [apply lookup_insert_eq|done].
Defined.

(** ** [_apply_operation]: exceptions and the result column *)

Lemma getitem_raises {A} (l : list A) i e :
  getitem l i = Raise e -> e = IndexError.
Proof.
  unfold getitem.
  destruct ((_ <? 0) || _); [by intros [= <-]|].
  destruct (l !! _); [done|by intros [= <-]].
Qed.

Lemma py_float_raises v e :
  py_float v = Raise e ->
  e = TypeError \/ e = ValueError \/ e = OverflowError.
Proof.
  destruct v as [|s|n|f|b|d]; cbn.
  - intros [= <-]. by left.
  - destruct (PyFloat.of_string s); [done|]. intros [= <-]. right. by left.
  - destruct (PyFloat.of_int n); [done|]. intros [= <-]. by do 2 right.
  - done.
  - done.
  - intros [= <-]. by left.
Qed.

(** What the body of the first loop raises, for an operation that
    returns on all floats. *)
Lemma row_result_raises row i1 i2 op e :
  (forall x y, exists z, op x y = Return z) ->
  row_result row i1 i2 op = Raise e ->
  e = ValueError \/ e = IndexError \/ e = OverflowError.
Proof.
  intros Hop. unfold row_result, _convert_to_numeric.
  destruct (getitem row i1) as [a|e1] eqn:H1; cbn.
  2:{ apply getitem_raises in H1 as ->. intros [= <-]. right. by left. }
  destruct (getitem row i2) as [b|e2] eqn:H2; cbn.
  - destruct (py_float a) as [x|ea] eqn:Ha; cbn.
    + destruct (py_float b) as [y|eb] eqn:Hb; cbn.
      * destruct (Hop x y) as [z ->]. done.
      * apply py_float_raises in Hb as [->|[->| ->]]; cbn; intros [= <-];
          auto.
    + apply py_float_raises in Ha as [->|[->| ->]]; cbn; intros [= <-]; auto.
  - apply getitem_raises in H2 as ->.
    destruct (py_float a) as [x|ea] eqn:Ha; cbn.
    + intros [= <-]. right. by left.
    + apply py_float_raises in Ha as [->|[->| ->]]; cbn; intros [= <-]; auto.
Qed.

Lemma list_index_cases name hs :
  (exists i, list_index name hs = Return i)
  \/ list_index name hs = Raise ValueError.
Proof.
  induction hs as [|h hs IH]; [by right|]. cbn.
  destruct (decide (h = name)); [left; by eexists|].
  destruct IH as [[i ->]| ->]; [left; by eexists|by right].
Qed.

Lemma column_index_cases t c st :
  is_Some (str_lists st !! headers t) ->
  (exists i, column_index t c st = (Return i, st))
  \/ column_index t c st = (Raise ValueError, st).
Proof.
  intros [hs Hh]. destruct c as [i|name]; [left; by exists i|].
  unfold column_index.
  rewrite (bind_Return _ _ _ _ _ (deref_Some str_lists _ _ _ Hh)). cbv beta.
  unfold lift.
  destruct (list_index_cases name hs) as [[i ->]| ->]; [left; by eexists|].
  by right.
Qed.

(** The first loop stops at the first row on which the body raises. *)
Lemma result_values_first_failure good r rest i1 i2 op st e :
  (forall r', r' ∈ good -> exists z, row_value st i1 i2 op r' = Return z) ->
  row_value st i1 i2 op r = Raise e ->
  result_values (good ++ r :: rest) i1 i2 op st = (Raise e, st).
Proof.
  intros Hgood Hr. induction good as [|r0 good IH].
  - cbn [app result_values]. unfold row_value in Hr.
    unfold bind at 1, deref. destruct (val_lists st !! r) as [row|].
    + unfold bind, lift. by rewrite Hr.
    + by injection Hr as <-.
  - cbn [app result_values].
    destruct (Hgood r0) as [z Hz]; [apply elem_of_cons; by left|].
    unfold row_value in Hz. unfold bind at 1, deref.
    destruct (val_lists st !! r0) as [row|]; [|done].
    unfold bind at 1, lift. rewrite Hz. unfold bind at 1.
    rewrite IH; [done|]. intros r' Hin. apply Hgood. apply elem_of_cons.
    by right.
Qed.

Lemma result_values_raises rows i1 i2 op st e st' :
  (forall x y, exists z, op x y = Return z) ->
  (forall r, r ∈ rows -> is_Some (val_lists st !! r)) ->
  result_values rows i1 i2 op st = (Raise e, st') ->
  e = ValueError \/ e = IndexError \/ e = OverflowError.
Proof.
  intros Hop. revert st'. induction rows as [|r rows IH]; intros st' Hrows.
  - done.
  - cbn [result_values]. unfold bind at 1, deref.
    destruct (Hrows r) as [row ->]; [apply elem_of_cons; by left|].
    unfold bind at 1, lift.
    destruct (row_result row i1 i2 op) as [x|e0] eqn:Hx.
    + unfold bind, ret.
      destruct (result_values rows i1 i2 op st) as [[xs|e1] st1] eqn:E;
        [done|].
      intros [= <- _]. apply (IH st1); [|done].
      intros r' Hin. apply Hrows. apply elem_of_cons. by right.
    + intros [= <- _]. by apply (row_result_raises row i1 i2 op).
Qed.

Lemma apply_operation_raises t c1 c2 name op st e :
  (forall x y, exists z, op x y = Return z) ->
  is_Some (str_lists st !! headers t) ->
  (forall r, r ∈ rows t -> is_Some (val_lists st !! r)) ->
  (_apply_operation t c1 c2 name op st).1 = Raise e ->
  e = ValueError \/ e = IndexError \/ e = OverflowError.
Proof.
  intros Hop Hh Hrows. unfold _apply_operation.
  destruct (column_index_cases t c1 st Hh) as [[i1 H1]|H1].
  2:{ unfold bind at 1. rewrite H1. cbn. intros [= <-]. by left. }
  rewrite (bind_Return _ _ _ _ _ H1). cbv beta.
  destruct (column_index_cases t c2 st Hh) as [[i2 H2]|H2].
  2:{ unfold bind at 1. rewrite H2. cbn. intros [= <-]. by left. }
  rewrite (bind_Return _ _ _ _ _ H2). cbv beta.
  unfold bind at 1.
  pose proof (result_values_store (rows t) i1 i2 op st) as Hst.
  destruct (result_values (rows t) i1 i2 op st) as [[xs|e3] st3] eqn:E;
    cbn in Hst; subst st3.
  - pose proof (Forall2_length _ _ _ (result_values_inv _ _ _ _ _ _ _ E))
      as Hlen.
    unfold bind at 1, str_list_append.
    by rewrite (append_values_eq _ 0) by (by rewrite drop_0).
  - cbn. intros [= <-]. by apply (result_values_raises _ _ _ _ _ _ _ Hop Hrows E).
Qed.

(** X11. On a table whose header list and rows are in the store, an
    exception of [add], [sub], [mul] or [div] is a [ValueError], an
    [IndexError] or an [OverflowError]: a [TypeError] of [float(...)] is
    turned into [ValueError] by the handler, and [div] never raises
    [ZeroDivisionError]. *)
Theorem arithmetic_raises_no_TypeError t c1 c2 name st e :
  is_Some (str_lists st !! headers t) ->
  (forall r, r ∈ rows t -> is_Some (val_lists st !! r)) ->
  (add t c1 c2 name st).1 = Raise e \/ (sub t c1 c2 name st).1 = Raise e
  \/ (mul t c1 c2 name st).1 = Raise e \/ (div t c1 c2 name st).1 = Raise e ->
  e = ValueError \/ e = IndexError \/ e = OverflowError.
Proof.
  intros Hh Hrows [H|[H|[H|H]]];
    refine (apply_operation_raises _ _ _ _ _ _ _ _ Hh Hrows H); intros x y.
  - by eexists.
  - by eexists.
  - by eexists.
  - unfold truediv. destruct (y =? PrimFloat.zero)%float; cbn; by eexists.
Qed.

Lemma arithmetic_raises_no_TypeError_witness :
  (add Example.t (ByName "id") (ByName "Age") "Sum" Example.st_bad).1
    = Raise ValueError
  /\ (ValueError = ValueError \/ ValueError = IndexError
      \/ ValueError = OverflowError).
Proof.
  split; [by vm_compute|].
  apply (arithmetic_raises_no_TypeError Example.t (ByName "id")
           (ByName "Age") "Sum" Example.st_bad ValueError).
  - by eexists.
  - intros r [->|[->|[]%elem_of_nil]%elem_of_cons]%elem_of_cons; by eexists.
  - left. by vm_compute.
Defined.

(** X12. The first row with an operand cell that [float] does not
    convert decides the outcome of [_apply_operation], when both cells
    of that row exist and the rows before it give a result: a cell that
    makes [float] raise [ValueError] or [TypeError] ([None], a
    [datetime], a string that is no number) gives [ValueError], and an
    [int] too large for a [float] gives [OverflowError], which the
    handler does not catch.  The store is as before. *)
Theorem apply_operation_unconvertible_cell t c1 c2 name op st i1 i2
    good r rest row a b e :
  column_index t c1 st = (Return i1, st) ->
  column_index t c2 st = (Return i2, st) ->
  rows t = good ++ r :: rest ->
  (forall r', r' ∈ good -> exists z, row_value st i1 i2 op r' = Return z) ->
  val_lists st !! r = Some row ->
  getitem row i1 = Return a ->
  getitem row i2 = Return b ->
  py_float a = Raise e
  \/ ((exists x, py_float a = Return x) /\ py_float b = Raise e) ->
  _apply_operation t c1 c2 name op st =
    (Raise (match e with OverflowError => OverflowError | _ => ValueError end),
     st).
Proof.
  intros H1 H2 Hrows Hgood Hr Ha Hb Hbad. unfold _apply_operation.
  rewrite (bind_Return _ _ _ _ _ H1). cbv beta.
  rewrite (bind_Return _ _ _ _ _ H2). cbv beta.
  unfold bind at 1. rewrite Hrows.
  rewrite (result_values_first_failure good r rest i1 i2 op st
             (match e with OverflowError => OverflowError | _ => ValueError end));
    [done|done|].
  unfold row_value. rewrite Hr. unfold row_result, _convert_to_numeric.
  rewrite Ha, Hb. cbn.
  destruct Hbad as [He|[[x Hx] He]].
  - rewrite He. pose proof (py_float_raises _ _ He) as [->|[->| ->]]; done.
  - rewrite Hx, He. cbn.
    pose proof (py_float_raises _ _ He) as [->|[->| ->]]; done.
Qed.

Lemma apply_operation_unconvertible_cell_witness :
  add t_huge (ByName "id") (ByName "Age") "Sum" st_huge
    = (Raise OverflowError, st_huge).
Proof.
  unfold add.
  apply (apply_operation_unconvertible_cell t_huge (ByName "id")
           (ByName "Age") "Sum" _ st_huge 0 1 [] 1%positive []
           [VStr "1"; VInt (2 ^ 1024)] (VStr "1") (VInt (2 ^ 1024))
           OverflowError).
  - done.
  - done.
  - done.
  - by intros r' ?%elem_of_nil.
  - done.
  - done.
  - done.
  - right. split; [eexists; reflexivity|]. by vm_compute.
Defined.

Lemma list_index_first name hs (k : nat) :
  hs !! k = Some name ->
  (forall j, (j < k)%nat -> hs !! j <> Some name) ->
  list_index name hs = Return (Z.of_nat k).
Proof.
  revert k. induction hs as [|h hs IH]; intros k Hk Hfirst; [done|].
  cbn [list_index]. destruct k as [|k].
  - injection Hk as ->. by rewrite decide_True.
  - rewrite decide_False.
    + rewrite (IH k); [cbn; f_equal; lia|done|].
      intros j Hj. apply (Hfirst (S j)). lia.
    + intros ->. by apply (Hfirst 0%nat); [lia|].
Qed.

(** A call that returns has resolved both columns and computed a value
    for every row. *)
Lemma apply_operation_inv t c1 c2 name op st st' :
  _apply_operation t c1 c2 name op st = (Return (), st') ->
  exists i1 i2,
    column_index t c1 st = (Return i1, st)
    /\ column_index t c2 st = (Return i2, st)
    /\ (forall r, r ∈ rows t ->
          row_value st i1 i2 op r = Return (value_of st i1 i2 op r)).
Proof.
  unfold _apply_operation. unfold bind at 1.
  pose proof (column_index_store t c1 st) as S1.
  destruct (column_index t c1 st) as [[i1|e1] st1]; cbn in S1; subst st1;
    [|done].
  unfold bind at 1.
  pose proof (column_index_store t c2 st) as S2.
  destruct (column_index t c2 st) as [[i2|e2] st2]; cbn in S2; subst st2;
    [|done].
  unfold bind at 1.
  destruct (result_values (rows t) i1 i2 op st) as [[xs|e3] st3] eqn:E;
    [|done].
  intros _. exists i1, i2. split; [done|]. split; [done|].
  apply result_values_inv in E. intros r Hr.
  apply list_elem_of_lookup in Hr as [n Hn].
  destruct (Forall2_lookup_l _ _ _ _ _ E Hn) as (x & _ & Hx).
  unfold value_of. by rewrite Hx.
Qed.

(** The header list after a call that returns. *)
Lemma apply_operation_headers t c1 c2 name op st st' hs :
  str_lists st !! headers t = Some hs ->
  _apply_operation t c1 c2 name op st = (Return (), st') ->
  str_lists st' !! headers t = Some (hs ++ [name]).
Proof.
  intros Hh Hrun.
  destruct (apply_operation_inv _ _ _ _ _ _ _ Hrun) as (i1 & i2 & H1 & H2 & Hv).
  destruct (apply_operation_Return t c1 c2 name op st i1 i2 _ H1 H2 Hv)
    as (st1 & Hrun1 & Hstr & _).
  rewrite Hrun in Hrun1. injection Hrun1 as <-.
  by rewrite Hstr, lookup_alter_eq, Hh.
Qed.

(** X13. On a table whose rows are distinct objects with as many cells
    as there are headers, after [_apply_operation] with a result name
    that is not yet a header, the new column can be used by name:
    [headers.index(result_column)] is the old [len(headers)], every row
    has as many cells as there are headers again, and its cell at that
    index is the result of the row. *)
Theorem apply_operation_result_column_by_name t c1 c2 name op st i1 i2 hs :
  column_index t c1 st = (Return i1, st) ->
  column_index t c2 st = (Return i2, st) ->
  str_lists st !! headers t = Some hs ->
  name ∉ hs ->
  NoDup (rows t) ->
  (forall r, r ∈ rows t ->
     exists row x y z,
       val_lists st !! r = Some row /\ length row = length hs
       /\ operands row i1 i2 x y /\ op x y = Return z) ->
  exists st',
    _apply_operation t c1 c2 name op st = (Return (), st')
    /\ column_index t (ByName name) st' = (Return (Z.of_nat (length hs)), st')
    /\ (forall r row x y z,
          r ∈ rows t -> val_lists st !! r = Some row ->
          operands row i1 i2 x y -> op x y = Return z ->
          exists row',
            val_lists st' !! r = Some row'
            /\ length row' = length (hs ++ [name])
            /\ getitem row' (Z.of_nat (length hs)) = Return (VFloat z)).
Proof.
  intros H1 H2 Hh Hname Hnd Hrows.
  destruct (apply_operation_Return t c1 c2 name op st i1 i2
              (value_of st i1 i2 op) H1 H2)
    as (st' & Hrun & Hstr & Hval & _).
  { intros r Hr.
    destruct (Hrows r Hr) as (row & x & y & z & Hrow & _ & Hxy & Hz).
    by destruct (row_value_operands st i1 i2 op r row x y z Hrow Hxy Hz)
      as [-> ->]. }
  exists st'. split; [done|]. split.
  - unfold column_index.
    assert (Hh' : str_lists st' !! headers t = Some (hs ++ [name])).
    { by rewrite Hstr, lookup_alter_eq, Hh. }
    rewrite (bind_Return _ _ _ _ _ (deref_Some str_lists _ _ _ Hh')).
    unfold lift. rewrite (list_index_first name _ (length hs)); [done| |].
    + by rewrite lookup_app_r, Nat.sub_diag.
    + intros j Hj Hjn. rewrite lookup_app_l in Hjn by done.
      by apply list_elem_of_lookup_2 in Hjn.
  - intros r row x y z Hr Hrow Hxy Hz.
    destruct (Hrows r Hr) as (row0 & _ & _ & _ & Hrow0 & Hlen & _).
    rewrite Hrow in Hrow0. injection Hrow0 as <-.
    exists (row ++ [VFloat z]). split; [|split].
    + rewrite Hval, Hrow. cbn. rewrite (occurrences_NoDup _ _ Hnd Hr).
      by destruct (row_value_operands st i1 i2 op r row x y z Hrow Hxy Hz)
        as [_ ->].
    + rewrite !length_app. cbn. lia.
    + apply getitem_lookup. by rewrite <- Hlen, lookup_app_r, Nat.sub_diag.
Qed.

Lemma apply_operation_result_column_by_name_witness :
  exists st',
    add Example.t (ByName "Age") (ByName "Age") "AgeTwice" Example.st
      = (Return (), st')
    /\ column_index Example.t (ByName "AgeTwice") st' = (Return 2, st').
Proof.
  destruct (apply_operation_result_column_by_name Example.t (ByName "Age")
              (ByName "Age") "AgeTwice"
              (fun x y => Return (x + y)%float) Example.st 1 1 ["id"; "Age"])
    as (st' & Hrun & Hcol & _).
  - done.
  - done.
  - done.
  - by intros [?|[?|[]%elem_of_nil]%elem_of_cons]%elem_of_cons.
  - apply NoDup_cons. split.
    + by intros [?|[]%elem_of_nil]%elem_of_cons.
    + apply NoDup_singleton.
  - intros r [->|[->|[]%elem_of_nil]%elem_of_cons]%elem_of_cons.
    + exists [VStr "1"; VStr "30"], 30%float, 30%float, 60%float.
      split; [done|]. split; [done|]. split; [|by vm_compute].
      by apply (operands_intro _ _ _ (VStr "30") (VStr "30")).
    + exists [VStr "2"; VStr "40"], 40%float, 40%float, 80%float.
      split; [done|]. split; [done|]. split; [|by vm_compute].
      by apply (operands_intro _ _ _ (VStr "40") (VStr "40")).
  - by exists st'.
Defined.

(** X14. When [result_column] is already a header, a call of
    [_apply_operation] that returns has appended the name a second time,
    and the name still resolves to its first position [k], an old
    column: the new column is not reachable by name. *)
Theorem apply_operation_existing_name t c1 c2 name op st st' hs (k : nat) :
  str_lists st !! headers t = Some hs ->
  hs !! k = Some name ->
  (forall j, (j < k)%nat -> hs !! j <> Some name) ->
  _apply_operation t c1 c2 name op st = (Return (), st') ->
  str_lists st' !! headers t = Some (hs ++ [name])
  /\ column_index t (ByName name) st' = (Return (Z.of_nat k), st')
  /\ (k < length hs)%nat.
Proof.
  intros Hh Hk Hfirst Hrun.
  pose proof (apply_operation_headers _ _ _ _ _ _ _ _ Hh Hrun) as Hh'.
  split; [done|]. split; [|by apply lookup_lt_Some in Hk].
  unfold column_index.
  rewrite (bind_Return _ _ _ _ _ (deref_Some str_lists _ _ _ Hh')).
  unfold lift. rewrite (list_index_first name _ k); [done| |].
  - by apply lookup_app_l_Some.
  - intros j Hj Hjn. apply (Hfirst j Hj).
    rewrite lookup_app_l in Hjn; [done|]. apply lookup_lt_Some in Hk. lia.
Qed.

Lemma apply_operation_existing_name_witness :
  let run := add Example.t (ByName "id") (ByName "Age") "Age" Example.st in
  str_lists run.2 !! 1%positive = Some ["id"; "Age"; "Age"]
  /\ column_index Example.t (ByName "Age") run.2 = (Return 1, run.2).
Proof.
  cbn zeta.
  destruct (apply_operation_existing_name Example.t (ByName "id")
              (ByName "Age") "Age" (fun x y => Return (x + y)%float)
              Example.st
              (add Example.t (ByName "id") (ByName "Age") "Age" Example.st).2
              ["id"; "Age"] 1) as (Hh & Hcol & _).
  - done.
  - done.
  - by intros [|j]; [|lia].
  - by vm_compute.
  - by split.
Defined.

(** X15. [_apply_operation] leaves [column_types] as it is, so the new
    column has no entry of its own; a following [detect_column_types]
    declares it [float].  Stated for a table with at least one row, whose
    rows are distinct objects with as many cells as there are headers,
    and a result name that is not yet a header. *)
Theorem apply_operation_then_detect_column_types t c1 c2 name op st i1 i2
    hs d rs :
  column_index t c1 st = (Return i1, st) ->
  column_index t c2 st = (Return i2, st) ->
  str_lists st !! headers t = Some hs ->
  dicts st !! column_types t = Some d ->
  name ∉ hs ->
  NoDup (rows t) ->
  rows t <> [] ->
  rows_are st (rows t) rs ->
  (forall row, row ∈ rs ->
     length row = length hs
     /\ exists x y z, operands row i1 i2 x y /\ op x y = Return z) ->
  exists st1 st2 d',
    _apply_operation t c1 c2 name op st = (Return (), st1)
    /\ dicts st1 !! column_types t = Some d
    /\ detect_column_types t st1 = (Return (), st2)
    /\ dicts st2 !! column_types t = Some d'
    /\ d' !! name = Some TFloat.
Proof.
  intros H1 H2 Hh Hd Hname Hnd Hne Hrows Hcells.
  set (f := value_of st i1 i2 op).
  assert (Hvals : forall r, r ∈ rows t -> row_value st i1 i2 op r = Return (f r)).
  { intros r Hr. apply list_elem_of_lookup in Hr as [n Hn].
    destruct (Forall2_lookup_l _ _ _ _ _ Hrows Hn) as (row & Hrow & Hr).
    destruct (Hcells row) as (_ & x & y & z & Hxy & Hz).
    { by apply list_elem_of_lookup_2 in Hrow. }
    destruct (row_value_operands st i1 i2 op r row x y z Hr Hxy Hz)
      as [Hrv Hvo].
    unfold f. by rewrite Hrv, Hvo. }
  destruct (apply_operation_Return t c1 c2 name op st i1 i2 f H1 H2 Hvals)
    as (st1 & Hrun & Hstr & Hval & Hdicts & _).
  set (rs' := zip_with (fun r row => row ++ [VFloat (f r)]) (rows t) rs).
  assert (Hrows' : rows_are st1 (rows t) rs').
  { unfold rows_are, rs'. apply Forall2_same_length_lookup_2.
    - rewrite length_zip_with. pose proof (Forall2_length _ _ _ Hrows). lia.
    - intros n r row' Hn Hrow'.
      apply lookup_zip_with_Some in Hrow' as (r0 & row & -> & Hn0 & Hrow).
      rewrite Hn in Hn0. injection Hn0 as <-.
      rewrite Hval, (Forall2_lookup_lr _ _ _ _ _ _ Hrows Hn Hrow). cbn.
      by rewrite (occurrences_NoDup _ _ Hnd (list_elem_of_lookup_2 _ _ _ Hn)). }
  assert (Hrs' : forall row', row' ∈ rs' ->
            exists row z, row' = row ++ [VFloat z] /\ length row = length hs).
  { intros row' Hin. apply list_elem_of_lookup in Hin as [n Hn].
    apply lookup_zip_with_Some in Hn as (r & row & -> & _ & Hrow).
    exists row, (f r). split; [done|].
    apply (Hcells row). by apply list_elem_of_lookup_2 in Hrow. }
  assert (Hh1 : str_lists st1 !! headers t = Some (hs ++ [name])).
  { by rewrite Hstr, lookup_alter_eq, Hh. }
  assert (Hd1 : dicts st1 !! column_types t = Some d) by by rewrite Hdicts.
  destruct (detect_column_types_column t st1 (hs ++ [name]) d rs' Hh1 Hd1 Hrows')
    as (d' & Hdet & Hcol & _).
  { intros row' (row & z & -> & Hlen)%Hrs'. rewrite !length_app. cbn. lia. }
  eexists st1, _, d'. split; [done|]. split; [done|]. split; [done|].
  split; [apply lookup_insert_eq|].
  rewrite (Hcol (length hs) name).
  - f_equal. apply detected_type_uniform; [by left| |].
    + destruct (rows t) as [|r rows0] eqn:Hrt; [done|].
      destruct rs as [|row rs0]; [by apply Forall2_length in Hrows|].
      intros Hnil.
      assert (Hin : VFloat (f r) ∈ column_values rs' (length hs)).
      { apply column_values_elem. exists (row ++ [VFloat (f r)]).
        split; [apply elem_of_cons; by left|]. split; [|done].
        destruct (Hcells row) as [Hlen _]; [apply elem_of_cons; by left|].
        by rewrite <- Hlen, lookup_app_r, Nat.sub_diag. }
      rewrite Hnil in Hin. by apply elem_of_nil in Hin.
    + intros v (row' & (row & z & -> & Hlen)%Hrs' & Hv & _)%column_values_elem.
      rewrite <- Hlen, lookup_app_r, Nat.sub_diag in Hv by done.
      by injection Hv as <-.
  - by rewrite lookup_app_r, Nat.sub_diag.
  - intros j' Hj'. rewrite lookup_ge_None_2; [done|].
    rewrite length_app. cbn. lia.
Qed.

Lemma apply_operation_then_detect_column_types_witness :
  exists st1 st2 d',
    add Example.t (ByName "Age") (ByName "Age") "AgeTwice" Example.st
      = (Return (), st1)
    /\ detect_column_types Example.t st1 = (Return (), st2)
    /\ dicts st2 !! 1%positive = Some d'
    /\ d' !! "AgeTwice" = Some TFloat.
Proof.
  destruct (apply_operation_then_detect_column_types Example.t (ByName "Age")
              (ByName "Age") "AgeTwice"
              (fun x y => Return (x + y)%float) Example.st 1 1 ["id"; "Age"]
              {[ "id" := TStr; "Age" := TStr ]}
              [[VStr "1"; VStr "30"]; [VStr "2"; VStr "40"]])
    as (st1 & st2 & d' & Hrun & _ & Hdet & Hd' & Hty).
  - done.
  - done.
  - done.
  - done.
  - by intros [?|[?|[]%elem_of_nil]%elem_of_cons]%elem_of_cons.
  - apply NoDup_cons. split.
    + by intros [?|[]%elem_of_nil]%elem_of_cons.
    + apply NoDup_singleton.
  - done.
  - by repeat constructor.
  - intros row [->|[->|[]%elem_of_nil]%elem_of_cons]%elem_of_cons.
    + split; [done|]. exists 30%float, 30%float, 60%float.
      split; [|by vm_compute].
      by apply (operands_intro _ _ _ (VStr "30") (VStr "30")).
    + split; [done|]. exists 40%float, 40%float, 80%float.
      split; [|by vm_compute].
      by apply (operands_intro _ _ _ (VStr "40") (VStr "40")).
  - by exists st1, st2, d'.
Defined.

(** ** [save_table]: one file, and a negative [max_rows] *)




(** X17. With a negative [max_rows] and a table of at least two rows,
    [save_table] of both modules returns without writing any file: the
    number of parts, [(len(rows) + max_rows - 1) // max_rows], is not
    positive. *)
Theorem save_table_negative_max_rows t file_path max_rows st :
  max_rows < 0 ->
  (2 <= length (rows t))%nat ->
  CSVModule.save_table t file_path (Some max_rows) st = (Return (), st)
  /\ PickleModule.save_table t file_path (Some max_rows) st = (Return (), st).
Proof.
  intros Hm Hlen.
  unfold CSVModule.save_table, PickleModule.save_table, truthy.
  destruct (Z.eqb_spec max_rows 0); [lia|]. cbn [negb].
  assert (Hk : (Z.of_nat (length (rows t)) + max_rows - 1) `div` max_rows <= 0).
  { pose proof (Z.div_mod (Z.of_nat (length (rows t)) + max_rows - 1)
                          max_rows ltac:(lia)) as Hdiv.
    pose proof (Z.mod_neg_bound (Z.of_nat (length (rows t)) + max_rows - 1)
                                max_rows ltac:(lia)) as Hmod.
    nia. }
  unfold range, seqZ. rewrite Z2Nat.nonpos by done. done.
Qed.

Lemma save_table_negative_max_rows_witness :
  CSVModule.save_table Example.t "out" (Some (-1)) Example.st
    = (Return (), Example.st)
  /\ PickleModule.save_table Example.t "out" (Some (-1)) Example.st
    = (Return (), Example.st).
Proof.
  apply (save_table_negative_max_rows Example.t "out" (-1) Example.st).
  - lia.
  - cbn. lia.
Defined.

(** ** [split] and [concat] together *)

(** [Table(headers, rows)] on the store with other dicts. *)
Lemma init_with_dicts hl rs st ds hs :
  str_lists st !! hl = Some hs ->
  (forall l d, dicts st !! l = Some d -> ds !! l = Some d) ->
  exists l ds',
    Table_.__init__ hl rs (with_dicts st ds)
      = (Return {| headers := hl; rows := rs; column_types := l |},
         with_dicts st ds')
    /\ (forall l d, dicts st !! l = Some d -> ds' !! l = Some d).
Proof.
  intros Hh Hds. rewrite (init_eq hl rs (with_dicts st ds) hs) by done.
  eexists _, _. split; [done|]. cbn. intros l d Hl.
  rewrite lookup_insert_ne; [by apply Hds|].
  intros <-. pose proof (fresh_dict_None (with_dicts st ds)) as Hnone.
  cbn in Hnone. by rewrite (Hds _ _ Hl) in Hnone.
Qed.

Lemma split_run t k st ds hs :
  str_lists st !! headers t = Some hs ->
  (forall l d, dicts st !! l = Some d -> ds !! l = Some d) ->
  0 <= k <= Z.of_nat (length (rows t)) ->
  exists l1 l2 ds',
    split t k (with_dicts st ds)
      = (Return ({| headers := headers t;
                    rows := take (Z.to_nat k) (rows t);
                    column_types := l1 |},
                 {| headers := headers t;
                    rows := drop (Z.to_nat k) (rows t);
                    column_types := l2 |}),
         with_dicts st ds')
    /\ (forall l d, dicts st !! l = Some d -> ds' !! l = Some d).
Proof.
  intros Hh Hds Hk. unfold split.
  destruct (Z.leb_spec 0 k); [|lia].
  destruct (Z.leb_spec k (Z.of_nat (length (rows t)))); [|lia].
  cbn [andb negb]. rewrite slice_to, slice_from by done.
  destruct (init_with_dicts (headers t) (take (Z.to_nat k) (rows t)) st ds hs
              Hh Hds) as (l1 & ds1 & Hrun1 & Hds1).
  rewrite (bind_Return _ _ _ _ _ Hrun1). cbv beta.
  destruct (init_with_dicts (headers t) (drop (Z.to_nat k) (rows t)) st ds1 hs
              Hh Hds1) as (l2 & ds2 & Hrun2 & Hds2).
  rewrite (bind_Return _ _ _ _ _ Hrun2). cbv beta.
  by exists l1, l2, ds2.
Qed.

Lemma concat_run a b st ds hs :
  str_lists st !! headers a = Some hs ->
  str_lists st !! headers b = Some hs ->
  (forall l d, dicts st !! l = Some d -> ds !! l = Some d) ->
  exists l ds',
    concat a b (with_dicts st ds)
      = (Return {| headers := headers a; rows := rows a ++ rows b;
                   column_types := l |},
         with_dicts st ds')
    /\ (forall l d, dicts st !! l = Some d -> ds' !! l = Some d).
Proof.
  intros Ha Hb Hds. unfold concat.
  rewrite (bind_Return _ _ _ _ _
             (deref_Some str_lists _ (with_dicts st ds) _ Ha)). cbv beta.
  rewrite (bind_Return _ _ _ _ _
             (deref_Some str_lists _ (with_dicts st ds) _ Hb)). cbv beta.
  rewrite decide_False by (intros H; by apply H).
  by apply (init_with_dicts _ _ _ _ hs).
Qed.

Lemma with_dicts_id st : with_dicts st (dicts st) = st.
Proof. by destruct st. Qed.

(** X18. [split] followed by [concat] of the two parts returns a table
    with the header list of the original and the same row objects in the
    same order, for every [0 <= k <= len(table.rows)]; no list, no file
    and no dict that existed before is changed. *)
Theorem split_then_concat t k st hs :
  str_lists st !! headers t = Some hs ->
  0 <= k <= Z.of_nat (length (rows t)) ->
  exists p1 p2 st1 t' st2,
    split t k st = (Return (p1, p2), st1)
    /\ concat p1 p2 st1 = (Return t', st2)
    /\ headers t' = headers t
    /\ rows t' = rows t
    /\ str_lists st2 = str_lists st
    /\ val_lists st2 = val_lists st
    /\ files st2 = files st
    /\ (forall l d, dicts st !! l = Some d -> dicts st2 !! l = Some d).
Proof.
  intros Hh Hk.
  destruct (split_run t k st (dicts st) hs Hh ltac:(done) Hk)
    as (l1 & l2 & ds1 & Hsplit & Hds1).
  rewrite with_dicts_id in Hsplit.
  match type of Hsplit with _ = (Return (?a, ?b), _) =>
    destruct (concat_run a b st ds1 hs Hh Hh Hds1) as (l & ds2 & Hconcat & Hds2)
  end.
  eexists _, _, _, _, _. split; [done|]. split; [done|]. cbn.
  split; [done|]. split; [apply take_drop|]. by repeat split.
Qed.

(** X19. [concat a b] followed by [split] at [len(a.rows)] returns
    parts with the rows of [a] and the rows of [b]; both parts have the
    header list of [a], also the part that holds the rows of [b]. *)
Theorem concat_then_split a b st hs :
  str_lists st !! headers a = Some hs ->
  str_lists st !! headers b = Some hs ->
  exists c st1 p1 p2 st2,
    concat a b st = (Return c, st1)
    /\ split c (Z.of_nat (length (rows a))) st1 = (Return (p1, p2), st2)
    /\ rows p1 = rows a /\ rows p2 = rows b
    /\ headers p1 = headers a /\ headers p2 = headers a
    /\ str_lists st2 = str_lists st
    /\ val_lists st2 = val_lists st
    /\ files st2 = files st
    /\ (forall l d, dicts st !! l = Some d -> dicts st2 !! l = Some d).
Proof.
  intros Ha Hb.
  destruct (concat_run a b st (dicts st) hs Ha Hb ltac:(done))
    as (l & ds1 & Hconcat & Hds1).
  rewrite with_dicts_id in Hconcat.
  match type of Hconcat with _ = (Return ?c, _) =>
    destruct (split_run c (Z.of_nat (length (rows a))) st ds1 hs Ha Hds1)
      as (l1 & l2 & ds2 & Hsplit & Hds2)
  end.
  { cbn. rewrite length_app. lia. }
  cbn [headers rows] in Hsplit. rewrite Nat2Z.id in Hsplit.
  rewrite take_app_length, drop_app_length in Hsplit.
  eexists _, _, _, _, _. split; [done|]. split; [done|]. by repeat split.
Qed.

Lemma split_then_concat_witness :
  exists p1 p2 st1 t' st2,
    split Example.t 1 Example.st = (Return (p1, p2), st1)
    /\ concat p1 p2 st1 = (Return t', st2)
    /\ rows t' = [1%positive; 2%positive].
Proof.
  destruct (split_then_concat Example.t 1 Example.st ["id"; "Age"])
    as (p1 & p2 & st1 & t' & st2 & Hsplit & Hconcat & _ & Hrows & _).
  - done.
  - cbn. lia.
  - by exists p1, p2, st1, t', st2.
Defined.

Lemma concat_then_split_witness :
  exists c st1 p1 p2 st2,
    concat Example.t Example.t_empty Example.st = (Return c, st1)
    /\ split c 2 st1 = (Return (p1, p2), st2)
    /\ rows p1 = [1%positive; 2%positive] /\ rows p2 = [].
Proof.
  destruct (concat_then_split Example.t Example.t_empty Example.st
              ["id"; "Age"])
    as (c & st1 & p1 & p2 & st2 & Hconcat & Hsplit & Hr1 & Hr2 & _).
  - done.
  - done.
  - by exists c, st1, p1, p2, st2.
Defined.

(** X20. The parts of [split] share the header list of the table: when
    the rows of the table are distinct objects, an operation of
    [_apply_operation] that returns on the first part appends its result
    name to the headers of the table and of the second part too, while
    the rows of the second part are as before, one cell short of their
    headers. *)
Theorem split_parts_share_headers t k st hs p1 p2 st1 c1 c2 name op st2 :
  str_lists st !! headers t = Some hs ->
  NoDup (rows t) ->
  split t k st = (Return (p1, p2), st1) ->
  _apply_operation p1 c1 c2 name op st1 = (Return (), st2) ->
  headers p2 = headers t
  /\ str_lists st2 !! headers t = Some (hs ++ [name])
  /\ (forall r, r ∈ rows p2 -> val_lists st2 !! r = val_lists st !! r).
Proof.
  intros Hh Hnd Hsplit Hrun.
  destruct (decide (0 <= k <= Z.of_nat (length (rows t)))) as [Hk|Hk].
  2:{ unfold split in Hsplit.
      destruct (Z.leb_spec 0 k);
        destruct (Z.leb_spec k (Z.of_nat (length (rows t))));
        try done; lia. }
  destruct (split_run t k st (dicts st) hs Hh ltac:(done) Hk)
    as (l1 & l2 & ds1 & Hsplit' & _).
  rewrite with_dicts_id, Hsplit in Hsplit'.
  injection Hsplit' as -> -> ->. cbn [headers rows] in *.
  split; [done|]. split.
  - match type of Hrun with _apply_operation ?p _ _ _ _ ?s = _ =>
      exact (apply_operation_headers p c1 c2 name op s st2 hs Hh Hrun) end.
  - intros r Hr.
    destruct (apply_operation_inv _ _ _ _ _ _ _ Hrun)
      as (i1 & i2 & H1 & H2 & Hv).
    destruct (apply_operation_Return _ c1 c2 name op _ i1 i2 _ H1 H2 Hv)
      as (st' & Hrun' & _ & Hval & _).
    rewrite Hrun in Hrun'. injection Hrun' as <-.
    rewrite Hval. cbn [rows val_lists with_dicts].
    rewrite occurrences_notin.
    + destruct (val_lists st !! r); cbn; [|done]. by rewrite app_nil_r.
    + rewrite <- (take_drop (Z.to_nat k) (rows t)) in Hnd.
      apply NoDup_app in Hnd as (_ & Hdisj & _).
      intros Hin. by apply (Hdisj r).
Qed.

Lemma split_parts_share_headers_witness :
  exists p1 p2 st1 st2,
    split Example.t 1 Example.st = (Return (p1, p2), st1)
    /\ add p1 (ByName "Age") (ByName "Age") "AgeTwice" st1 = (Return (), st2)
    /\ str_lists st2 !! headers p2 = Some ["id"; "Age"; "AgeTwice"]
    /\ (val_lists st2 !!.) <$> rows p2 = [Some [VStr "2"; VStr "40"]].
Proof.
  destruct (split Example.t 1 Example.st) as [[[p1 p2]|e] st1] eqn:Hsplit;
    [|by vm_compute in Hsplit].
  destruct (add p1 (ByName "Age") (ByName "Age") "AgeTwice" st1)
    as [[[]|e] st2] eqn:Hadd.
  2:{ assert (Hs : (split Example.t 1 Example.st).1 = Return (p1, p2))
        by by rewrite Hsplit.
      assert (Hst : (split Example.t 1 Example.st).2 = st1)
        by by rewrite Hsplit.
      vm_compute in Hs. injection Hs as <- <-. subst st1.
      by vm_compute in Hadd. }
  destruct (split_parts_share_headers Example.t 1 Example.st ["id"; "Age"]
              p1 p2 st1 (ByName "Age") (ByName "Age") "AgeTwice"
              (fun x y => Return (x + y)%float) st2)
    as (Hp2 & Hh2 & Hrows2).
  - done.
  - apply NoDup_cons. split.
    + by intros [?|[]%elem_of_nil]%elem_of_cons.
    + apply NoDup_singleton.
  - done.
  - done.
  - exists p1, p2, st1, st2. split; [done|]. split; [done|].
    rewrite Hp2. split; [done|].
    assert (Hs : (split Example.t 1 Example.st).1 = Return (p1, p2))
      by by rewrite Hsplit.
    vm_compute in Hs. injection Hs as <- <-. cbn.
    by rewrite (Hrows2 2%positive) by (apply elem_of_cons; by left).
Defined.
